(** * EEG Plotly viewer page: a shallow embedding and its properties

    The development follows [app/pages/eeg_plotly_viewer.py] from top to
    bottom.  The page is a Streamlit script: it reads a directory, asks
    the user for a subject, a condition and a task, builds a file name,
    loads the file (downloading it when it is not on disk), plots the
    selected channels and finally highlights electrodes on a picture.

    Python [str] values are modelled as byte strings (UTF-8).  The
    literals the script splits on, removes or appends are ASCII, and
    UTF-8 preserves code-point order, so splitting, replacing and
    sorting agree with Python on the encoded text. *)

From Stdlib Require Import Ascii.
From stdpp Require Import gmap strings list sorting.

(** ** Python built-ins used by the page *)

Module Py.

(** Exceptions the script can meet; [str_exc] is Python's [str(e)],
    the text an f-string interpolates. *)
Inductive Exception :=
| KeyError (key : string)
| ValueError (msg : string)
| FileNotFoundError (path : string)
| OtherError (msg : string).

Definition str_exc (e : Exception) : string :=
  match e with
  | KeyError k => "'" +:+ k +:+ "'"
  | ValueError m => m
  | FileNotFoundError p => "[Errno 2] No such file or directory: '" +:+ p +:+ "'"
  | OtherError m => m
  end.

(** A computation that either returns or raises. *)
Definition result (A : Type) : Type := Exception + A.

Definition startswith (s p : string) : bool := String.prefix p s.

(** [s.endswith(suf)] *)
Definition endswith (s suf : string) : bool :=
  String.prefix (String.rev suf) (String.rev s).

(** [s.split(sep)] for a one-character separator.  The result always
    has at least one field: ["".split("_") == [""]]. *)
Fixpoint split (sep : ascii) (s : string) : list string :=
  match s with
  | EmptyString => [""]
  | String c s' =>
      if decide (c = sep) then "" :: split sep s'
      else match split sep s' with
           | [] => [String c ""]
           | h :: t => String c h :: t
           end
  end.

(** [l[0]]; on the output of [split] the default is never used
    (see [split_nonempty]). *)
Definition item0 (l : list string) : string := hd "" l.

(** [s.replace(old, new)]: one pass from the left, occurrences do not
    overlap.  [skip] counts the characters of a matched occurrence that
    are still to be dropped. *)
Fixpoint replace_go (old new : string) (skip : nat) (s : string) : string :=
  match s with
  | EmptyString => ""
  | String c s' =>
      match skip with
      | S k => replace_go old new k s'
      | O =>
          if String.prefix old s
          then new +:+ replace_go old new (String.length old - 1) s'
          else String c (replace_go old new 0 s')
      end
  end.

Fixpoint interleave (new s : string) : string :=
  match s with
  | EmptyString => new
  | String c s' => new +:+ String c (interleave new s')
  end.

Definition replace (old new s : string) : string :=
  match old with
  | EmptyString => interleave new s
  | _ => replace_go old new 0 s
  end.

(** [p in s] *)
Fixpoint contains (p s : string) : bool :=
  String.prefix p s ||
  match s with
  | EmptyString => false
  | String _ s' => contains p s'
  end.

(** [sorted(xs)] on strings: ascending in the byte-wise lexicographic
    order.  Python sorts stably; on a total order the sorted
    arrangement of distinct items is unique, whatever the algorithm. *)
Definition sorted (xs : list string) : list string := merge_sort String.le xs.

(** A dict literal keeps its insertion order; [getitem] is [d[k]] and
    [get] is [d.get(k, default)].  The literals of the page repeat no
    key, so the first entry for a key is the only one. *)
Definition dict (V : Type) : Type := list (string * V).

Fixpoint lookup {V} (d : dict V) (k : string) : option V :=
  match d with
  | [] => None
  | (k', v) :: d' => if decide (k' = k) then Some v else lookup d' k
  end.

Definition getitem {V} (d : dict V) (k : string) : result V :=
  match lookup d k with
  | Some v => inr v
  | None => inl (KeyError k)
  end.

Definition get {V} (d : dict V) (k : string) (default : V) : V :=
  match lookup d k with
  | Some v => v
  | None => default
  end.

Definition keys {V} (d : dict V) : list string := fst <$> d.

(** [os.path.join(a, b)] on POSIX. *)
Definition path_join (a b : string) : string :=
  if startswith b "/" then b
  else if decide (a = "") then b
  else if endswith a "/" then a +:+ b
  else a +:+ "/" +:+ b.

End Py.

Import Py.

(** ** Module-level constants of the page *)

Definition HF_REPO : string := "aparker03/eeg-csv".

Definition CHANNEL_INFO : dict string :=
  [ ("Fp1", "Frontopolar left (near forehead)");
    ("Fp2", "Frontopolar right (near forehead)");
    ("AF3", "Anterior frontal left");
    ("AF4", "Anterior frontal right");
    ("AF7", "Anterior frontal left (lateral)");
    ("AF8", "Anterior frontal right (lateral)");
    ("Fz", "Frontal midline");
    ("F1", "Frontal left mid");
    ("F2", "Frontal right mid");
    ("F3", "Frontal left");
    ("F4", "Frontal right");
    ("FC1", "Frontal-central left");
    ("FC2", "Frontal-central right");
    ("Cz", "Central midline (top of head)");
    ("C3", "Central left");
    ("C4", "Central right");
    ("CP1", "Central-parietal left");
    ("CP2", "Central-parietal right");
    ("Pz", "Parietal midline");
    ("P3", "Parietal left");
    ("P4", "Parietal right");
    ("O1", "Occipital left (visual area)");
    ("O2", "Occipital right (visual area)");
    ("Oz", "Occipital midline");
    ("T7", "Temporal left");
    ("T8", "Temporal right");
    ("POz", "Parieto-occipital midline") ].

Definition DATA_DIR : string := "data/eeg_csv".

(** ** Subject catalogue (source line 53) *)

(** [f.split("_")[0].replace("sub-", "")] *)
Definition subject_of (f : string) : string :=
  replace "sub-" "" (item0 (split "_"%char f)).

(** [sorted({... for f in csv_files})]: the set comprehension is a
    [gset]; its iteration order is unspecified and [sorted] fixes it. *)
Definition subject_ids (csv_files : list string) : list string :=
  sorted (elements (list_to_set (subject_of <$> csv_files) : gset string)).

(** ** File name (source lines 57 to 68) *)

Definition cond_options : list string := ["Normal Sleep (NS)"; "Sleep Deprived (SD)"].
Definition task_options : list string := ["Eyes Open"; "Eyes Closed"].

Definition cond_map : dict string :=
  [ ("Normal Sleep (NS)", "ses-1"); ("Sleep Deprived (SD)", "ses-2") ].
Definition task_map : dict string :=
  [ ("Eyes Open", "eyesopen"); ("Eyes Closed", "eyesclosed") ].

Record Resolved := {
  subj_str : string;
  session_str : string;
  task_str : string;
  filename : string;
  file_path : string
}.

Definition build_filename (selected_subj selected_cond selected_task : string)
  : result Resolved :=
  let subj_str := "sub-" +:+ selected_subj in
  match getitem cond_map selected_cond with
  | inl e => inl e
  | inr session_str =>
      match getitem task_map selected_task with
      | inl e => inl e
      | inr task_str =>
          let filename := subj_str +:+ "_" +:+ session_str +:+ "_" +:+ task_str +:+ ".csv" in
          inr {| subj_str := subj_str; session_str := session_str;
                 task_str := task_str; filename := filename;
                 file_path := path_join DATA_DIR filename |}
      end
  end.

(** ** Channel descriptions (source line 98) *)

Definition describe (ch : string) : string :=
  get CHANNEL_INFO ch "No description available".

(** ** The disk

    Files are a finite map from paths to contents.  A directory is
    there when it is listed in [dirs] (it may be empty) or when a file
    or a listed directory lies below it. *)

Record Disk := {
  files : gmap string string;
  dirs : gset string
}.

Definition strip_prefix (p s : string) : option string :=
  if String.prefix p s
  then Some (String.substring (String.length p) (String.length s - String.length p) s)
  else None.

Definition paths (d : Disk) : list string :=
  elements (dom (files d)) ++ elements (dirs d).

(** The entries directly under [dir], files and directories alike, in
    no particular order. *)
Definition listdir (d : Disk) (dir : string) : list string :=
  remove_dups
    (omap (λ p, (λ rest, item0 (split "/"%char rest)) <$> strip_prefix (dir +:+ "/") p)
          (paths d)).

(** [os.path.isdir(p)] *)
Definition isdir (d : Disk) (p : string) : bool :=
  bool_decide (p ∈ dirs d) || existsb (λ q, startswith q (p +:+ "/")) (paths d).

(** [os.path.exists(p)] *)
Definition path_exists (d : Disk) (p : string) : bool :=
  bool_decide (is_Some (files d !! p)) || isdir d p.

Definition read_file (d : Disk) (p : string) : result string :=
  match files d !! p with
  | Some bytes => inr bytes
  | None =>
      if isdir d p
      then inl (OtherError ("[Errno 21] Is a directory: '" +:+ p +:+ "'"))
      else inl (FileNotFoundError p)
  end.

Definition write_file (d : Disk) (p bytes : string) : Disk :=
  {| files := <[p := bytes]> (files d); dirs := dirs d |}.

(** What the user has set on the page's widgets; [None] is a widget
    left at its default. *)
Record Selections := {
  sel_subj : option string;
  sel_cond : option string;
  sel_task : option string;
  sel_channels : option (list string);
  sel_electrodes : option (list string)
}.

(** ** Streamlit, the file system and the content store

    A run of the script is a computation over a [World]: the files on
    disk, the requests sent to the content store so far and the trace of
    Streamlit calls, oldest first.  [st.stop()] ends the run; an
    exception nobody catches ends it too. *)

Section Viewer.

(** What a cell of a loaded table holds (pandas decides; the page only
    passes cells on to the chart). *)
Context {cell : Type}.

(** [pd.read_csv] on the bytes of a file: the columns in file order,
    each with its values in row order.  (The reader renames repeated
    headers, so a label names one column.) *)
Variable parse_csv : string → result (dict (list cell)).

Definition DataFrame : Type := dict (list cell).

Record Scatter := {
  x : list cell;
  y : list cell;
  mode : string;
  name : string
}.

Record Layout := {
  title : string;
  xaxis_title : string;
  yaxis_title : string;
  height : Z
}.

Record Figure := {
  data : list Scatter;
  layout : option Layout
}.

(** RGBA pixels and images addressed by coordinate. *)
Definition pixel : Type := Z * Z * Z * Z.

Record Image := {
  size : Z * Z;
  getpixel : Z → Z → pixel
}.

Inductive Element :=
| PageConfig (page_title layout : string)
| Title (body : string)
| Warning (body : string)
| Error (body : string)
| Info (body : string)
| Markdown (body : string)
| Selectbox (label : string) (options : list string)
| Radio (label : string) (options : list string)
| Multiselect (label : string) (options default : list string)
| Spinner (text : string)
| Expander (label : string)
| PlotlyChart (fig : Figure)
| Picture (image : Image) (caption : string).

Record World := {
  fs : Disk;
  requests : list (string * string);
  ui : list Element
}.

Inductive Outcome (A : Type) :=
| Done (a : A)
| Stopped
| Raised (e : Exception).
Global Arguments Done {A} a.
Global Arguments Stopped {A}.
Global Arguments Raised {A} e.

Definition M (A : Type) : Type := World → Outcome A * World.

Definition ret {A} (a : A) : M A := λ w, (Done a, w).

Definition bind {A B} (m : M A) (k : A → M B) : M B :=
  λ w, match m w with
       | (Done a, w') => k a w'
       | (Stopped, w') => (Stopped, w')
       | (Raised e, w') => (Raised e, w')
       end.

Definition raise {A} (e : Exception) : M A := λ w, (Raised e, w).

Definition lift {A} (r : result A) : M A :=
  match r with
  | inl e => raise e
  | inr a => ret a
  end.

(** [try: body except Exception as e: handler(e)].  [st.stop()] inside
    the body would pass through: its exception is not an [Exception]. *)
Definition try_except {A} (body : M A) (handler : Exception → M A) : M A :=
  λ w, match body w with
       | (Raised e, w') => handler e w'
       | r => r
       end.

(** The world after further Streamlit calls. *)
Definition shown (w : World) (es : list Element) : World :=
  {| fs := fs w; requests := requests w; ui := ui w ++ es |}.

Definition emit (e : Element) : M unit := λ w, (Done (), shown w [e]).

(** [st.stop()] *)
Definition stop {A} : M A := λ w, (Stopped, w).

Local Notation "x <- m ;; k" := (bind m (λ x, k))
  (at level 20, m at level 99, k at level 200, only parsing).
Local Notation "m ;; k" := (bind m (λ _, k))
  (at level 100, k at level 200, only parsing, right associativity).

Fixpoint for_each {A} (xs : list A) (body : A → M unit) : M unit :=
  match xs with
  | [] => ret ()
  | a :: xs' => body a ;; for_each xs' body
  end.

(** *** Files *)

(** [os.listdir(dir)] raises when [dir] is not a directory. *)
Definition os_listdir (dir : string) : M (list string) :=
  λ w, if isdir (fs w) dir then (Done (listdir (fs w) dir), w)
       else if bool_decide (is_Some (files (fs w) !! dir))
       then (Raised (OtherError ("[Errno 20] Not a directory: '" +:+ dir +:+ "'")), w)
       else (Raised (FileNotFoundError dir), w).

Definition os_path_exists (p : string) : M bool :=
  λ w, (Done (path_exists (fs w) p), w).

(** [pd.read_csv(path)] *)
Definition pd_read_csv (p : string) : M DataFrame :=
  λ w, match read_file (fs w) p with
       | inl e => (Raised e, w)
       | inr bytes => lift (parse_csv bytes) w
       end.

(** *** Content store

    [hub repo_id name] is what the store answers for an object: its
    bytes, or the exception the client raises (object not found,
    network failure, store unreachable). *)
Variable hub : string → string → result string.

(** Modelled from the spec: the store client [hf_hub_download] is a
    third-party function, not part of the repository.  Called with
    [local_dir], it asks the store for the object; on success it writes
    the bytes to [local_dir/filename] and returns that path, on failure
    it raises.  [requests] logs the call, one entry per call.  What the
    client does besides is left out: its own retries over the network
    and the bookkeeping files it keeps under [local_dir/.cache]. *)
Definition hf_hub_download (repo_id filename local_dir : string) : M string :=
  λ w, let sent := requests w ++ [(repo_id, filename)] in
       match hub repo_id filename with
       | inl e => (Raised e, {| fs := fs w; requests := sent; ui := ui w |})
       | inr bytes =>
           let path := path_join local_dir filename in
           (Done path, {| fs := write_file (fs w) path bytes; requests := sent; ui := ui w |})
       end.

(** *** Widgets

    A widget call is recorded in the trace and returns the value the
    user has set, or the widget's default when the user has not
    touched it ([None]). *)

Definition selectbox (label : string) (options : list string) (choice : option string)
  : M string :=
  emit (Selectbox label options) ;; ret (default (item0 options) choice).

Definition radio (label : string) (options : list string) (choice : option string)
  : M string :=
  emit (Radio label options) ;; ret (default (item0 options) choice).

Definition multiselect (label : string) (options dflt : list string)
    (choice : option (list string)) : M (list string) :=
  emit (Multiselect label options dflt) ;; ret (default dflt choice).

(** *** Loading the table (source lines 70 to 87) *)

Definition fetch (r : Resolved) : M DataFrame :=
  present <- os_path_exists (file_path r) ;;
  path <- (if negb present
           then
             emit (Spinner ("📡 Downloading " +:+ filename r +:+ " from Hugging Face...")) ;;
             try_except
               (hf_hub_download HF_REPO (filename r) DATA_DIR)
               (λ e,
                  emit (Error ("Failed to retrieve `" +:+ filename r
                                 +:+ "` from Hugging Face: " +:+ str_exc e)) ;;
                  stop)
           else ret (file_path r)) ;;
  pd_read_csv path.

(** *** Channels (source lines 88 to 116) *)

Definition time_col : string := "Time".

Definition eeg_channels (df : DataFrame) : list string :=
  filter (λ col, col ≠ time_col) (keys df).

Definition describe_channels (selected_channels : list string) : M unit :=
  emit (Expander "ℹ️ What do the EEG channels mean?") ;;
  match selected_channels with
  | [] => emit (Markdown "Select a channel above to see its meaning.")
  | _ => for_each selected_channels
           (λ ch, emit (Markdown ("**" +:+ ch +:+ "**: " +:+ describe ch)))
  end.

Definition add_trace (fig : Figure) (t : Scatter) : Figure :=
  {| data := data fig ++ [t]; layout := layout fig |}.

Definition update_layout (fig : Figure) (l : Layout) : Figure :=
  {| data := data fig; layout := Some l |}.

(** The loop of lines 105 and 106; [df[c]] raises [KeyError] for a
    missing column. *)
Fixpoint add_traces (df : DataFrame) (chs : list string) (fig : Figure)
  : result Figure :=
  match chs with
  | [] => inr fig
  | ch :: chs' =>
      match getitem df time_col with
      | inl e => inl e
      | inr xs =>
          match getitem df ch with
          | inl e => inl e
          | inr ys =>
              add_traces df chs'
                (add_trace fig {| x := xs; y := ys; mode := "lines"; name := ch |})
          end
      end
  end.

(** The arguments of [fig.update_layout] (lines 108 to 113). *)
Definition figure_layout (r : Resolved) : Layout :=
  {| title := "EEG Signal – " +:+ subj_str r +:+ ", " +:+ session_str r
                +:+ ", " +:+ task_str r;
     xaxis_title := "Time (s)";
     yaxis_title := "Amplitude (μV)";
     height := 600 |}.

Definition build_figure (df : DataFrame) (r : Resolved) (selected_channels : list string)
  : result Figure :=
  match add_traces df selected_channels {| data := []; layout := None |} with
  | inl e => inl e
  | inr fig => inr (update_layout fig (figure_layout r))
  end.

(** [t] plots channel [ch] of [df] against the time values [ts]. *)
Definition is_trace_of (df : DataFrame) (ts : list cell) (ch : string) (t : Scatter) : Prop :=
  x t = ts ∧ Py.lookup df ch = Some (y t) ∧ mode t = "lines" ∧ name t = ch.

Definition render (df : DataFrame) (r : Resolved) (selected_channels : list string)
  : M unit :=
  match selected_channels with
  | [] => emit (Info "No EEG channels selected.")
  | _ =>
      fig <- lift (build_figure df r selected_channels) ;;
      emit (PlotlyChart fig)
  end.

(** *** Pillow: colours, drawing, compositing (used by lines 139 to 159) *)

Local Open Scope Z_scope.

Definition lower_ascii (c : ascii) : ascii :=
  let n := nat_of_ascii c in
  if (65 <=? n)%nat && (n <=? 90)%nat then ascii_of_nat (n + 32) else c.

Fixpoint lower (s : string) : string :=
  match s with
  | EmptyString => ""
  | String c s' => String (lower_ascii c) (lower s')
  end.

(** [repr(s)] for text without quotes or escapes. *)
Definition repr (s : string) : string := "'" +:+ s +:+ "'".

Definition hexval (c : ascii) : option Z :=
  let n := Z.of_nat (nat_of_ascii c) in
  if (48 <=? n) && (n <=? 57) then Some (n - 48)
  else if (97 <=? n) && (n <=? 102) then Some (n - 87)
  else None.

Definition hex2 (hi lo : ascii) : option Z :=
  h ← hexval hi; l ← hexval lo; Some (16 * h + l).

(** A colour as [ImageColor.getrgb] returns it: three bands, or four
    when the text carries an alpha. *)
Definition color : Type := (Z * Z * Z) * option Z.

(** The patterns end in [$], which also matches just before one
    final newline. *)
Definition chomp (s : string) : string :=
  match String.rev s with
  | String "010" r => String.rev r
  | _ => s
  end.

(** The [#rgb], [#rgba], [#rrggbb] and [#rrggbbaa] forms. *)
Definition parse_hex (s : string) : option color :=
  match String.list_ascii_of_string (chomp s) with
  | ["#"; r; g; b]%char =>
      r' ← hex2 r r; g' ← hex2 g g; b' ← hex2 b b; Some ((r', g', b'), None)
  | ["#"; r; g; b; a]%char =>
      r' ← hex2 r r; g' ← hex2 g g; b' ← hex2 b b; a' ← hex2 a a;
      Some ((r', g', b'), Some a')
  | ["#"; r1; r2; g1; g2; b1; b2]%char =>
      r' ← hex2 r1 r2; g' ← hex2 g1 g2; b' ← hex2 b1 b2; Some ((r', g', b'), None)
  | ["#"; r1; r2; g1; g2; b1; b2; a1; a2]%char =>
      r' ← hex2 r1 r2; g' ← hex2 g1 g2; b' ← hex2 b1 b2; a' ← hex2 a1 a2;
      Some ((r', g', b'), Some a')
  | _ => None
  end.

(** The colour names this page uses, with the sixteen basic ones.
    Pillow's table has further CSS names; none of them has a digit. *)
Definition colormap : dict string :=
  [ ("black", "#000000"); ("silver", "#c0c0c0"); ("gray", "#808080");
    ("white", "#ffffff"); ("maroon", "#800000"); ("red", "#ff0000");
    ("purple", "#800080"); ("fuchsia", "#ff00ff"); ("green", "#008000");
    ("lime", "#00ff00"); ("olive", "#808000"); ("yellow", "#ffff00");
    ("navy", "#000080"); ("blue", "#0000ff"); ("teal", "#008080");
    ("aqua", "#00ffff"); ("orange", "#ffa500") ].

(** The [rgb(...)], [hsl(...)], [hsv(...)] and [hsb(...)] notations;
    they apply only to text that starts with those letters. *)
Variable functional_color : string → option color.

(** [ImageColor.getrgb] *)
Definition getrgb (specifier : string) : result color :=
  if (100 <? String.length specifier)%nat
  then inl (ValueError "color specifier is too long")
  else
    let c := lower specifier in
    match Py.lookup colormap c ≫= parse_hex with
    | Some v => inr v
    | None =>
        match parse_hex c with
        | Some v => inr v
        | None =>
            let unknown := ValueError ("unknown color specifier: " +:+ repr c) in
            if startswith c "rgb" || startswith c "hs"
            then match functional_color c with
                 | Some v => inr v
                 | None => inl unknown
                 end
            else inl unknown
        end
    end.

(** [ImageColor.getcolor(specifier, "RGBA")] *)
Definition getcolor (specifier : string) : result pixel :=
  match getrgb specifier with
  | inl e => inl e
  | inr ((r, g, b), alpha) => inr (r, g, b, default 255 alpha)
  end.

(** [Image.new("RGBA", size, colour)] *)
Definition Image_new (sz : Z * Z) (c : pixel) : Image :=
  {| size := sz; getpixel := λ _ _, c |}.

(** Which pixels a filled ellipse with bounding box [(x0, y0, x1, y1)]
    covers is the rasteriser's business. *)
Variable ellipse_covers : Z * Z * Z * Z → Z → Z → bool.

(** [ImageDraw.Draw(im).ellipse(xy, fill=...)] on an RGBA image: the
    fill text is turned into ink first, then the covered pixels are
    set to the ink (drawing replaces, it does not blend). *)
Definition ellipse (im : Image) (xy : Z * Z * Z * Z) (fill : string) : result Image :=
  match getcolor fill with
  | inl e => inl e
  | inr ink =>
      inr {| size := size im;
             getpixel := λ px py,
               if ellipse_covers xy px py then ink else getpixel im px py |}
  end.

Definition shift_for_div255 (a : Z) : Z := ((a ≫ 8) + a) ≫ 8.

(** One pixel of [Image.alpha_composite]: a fully transparent source
    pixel leaves the destination pixel as it is; otherwise the bands
    are mixed in integer arithmetic with seven extra bits. *)
Definition composite_pixel (dst src : pixel) : pixel :=
  let '(dr, dg, db, da) := dst in
  let '(sr, sg, sb, sa) := src in
  if decide (sa = 0) then dst
  else
    let blend := da * (255 - sa) in
    let outa255 := sa * 255 + blend in
    let coef1 := sa * 255 * 255 * 128 / outa255 in
    let coef2 := 255 * 128 - coef1 in
    let band s d := shift_for_div255 (s * coef1 + d * coef2 + 128 * 128) ≫ 7 in
    (band sr dr, band sg dg, band sb db, shift_for_div255 (outa255 + 128)).

(** [Image.alpha_composite(im1, im2)]: a new image, [im2] over [im1]. *)
Definition alpha_composite (im1 im2 : Image) : result Image :=
  if decide (size im1 = size im2)
  then inr {| size := size im1;
              getpixel := λ px py, composite_pixel (getpixel im1 px py) (getpixel im2 px py) |}
  else inl (ValueError "images do not match").

(** *** Electrode highlight (source lines 125 to 159) *)

Definition electrode_colors : dict string :=
  [ ("FP1", "red"); ("AF3", "blue"); ("AF7", "green"); ("FZ", "orange"); ("F1", "purple") ].

Definition electrode_options : list string := keys electrode_colors.

Definition electrode_coords : dict (Z * Z) :=
  [ ("FP1", (310, 90)); ("AF3", (340, 125)); ("AF7", (280, 130));
    ("FZ", (425, 150)); ("F1", (385, 140)) ].

(** The loop of lines 154 to 156 on the overlay. *)
Fixpoint draw_markers (overlay : Image) (selected_electrodes : list string)
  : result Image :=
  match selected_electrodes with
  | [] => inr overlay
  | elec :: rest =>
      match getitem electrode_coords elec with
      | inl e => inl e
      | inr (ex, ey) =>
          match getitem electrode_colors elec with
          | inl e => inl e
          | inr c =>
              match ellipse overlay (ex - 15, ey - 15, ex + 15, ey + 15) (c +:+ "80") with
              | inl e => inl e
              | inr overlay' => draw_markers overlay' rest
              end
          end
      end
  end.

Definition annotate (brain_img : Image) (selected_electrodes : list string)
  : result Image :=
  let overlay := Image_new (size brain_img) (255, 255, 255, 0) in
  match draw_markers overlay selected_electrodes with
  | inl e => inl e
  | inr overlay' => alpha_composite brain_img overlay'
  end.

(** [Image.open(path).convert("RGBA")] *)
Variable image_open : string → result Image.

(** ** The page *)

(** The header every run starts with (lines 41 and 42). *)
Definition header : list Element :=
  [ PageConfig "EEG Plotly Viewer" "wide";
    Title "🧠 EEG Viewer (Plotly Interactive)" ].

(** What the three pickers add to the trace. *)
Definition pickers (csv_files : list string) : list Element :=
  [ Selectbox "👤 Select Subject:" (subject_ids csv_files);
    Radio "🛌 Select Condition:" cond_options;
    Radio "👁️ Select Task:" task_options ].

(** What a failed download adds to the trace. *)
Definition failure_notice (r : Resolved) (e : Exception) : list Element :=
  [ Spinner ("📡 Downloading " +:+ filename r +:+ " from Hugging Face...");
    Error ("Failed to retrieve `" +:+ filename r +:+ "` from Hugging Face: "
             +:+ str_exc e) ].

(** The CSV files the page sees in the data directory (line 46). *)
Definition csv_files_of (w : World) : list string :=
  filter (λ f, endswith f ".csv" = true) (listdir (fs w) DATA_DIR).

(** The file the three pickers resolve to (lines 56 to 68), given the
    CSV files on disk. *)
Definition selected_session (u : Selections) (csv_files : list string) : result Resolved :=
  build_filename (default (item0 (subject_ids csv_files)) (sel_subj u))
                 (default (item0 cond_options) (sel_cond u))
                 (default (item0 task_options) (sel_task u)).

Definition page (u : Selections) : M unit :=
  emit (PageConfig "EEG Plotly Viewer" "wide") ;;
  emit (Title "🧠 EEG Viewer (Plotly Interactive)") ;;
  entries <- os_listdir DATA_DIR ;;
  let csv_files := filter (λ f, endswith f ".csv" = true) entries in
  match csv_files with
  | [] =>
      emit (Warning "No EEG CSV files found in `data/eeg_csv/`.") ;;
      stop
  | _ =>
      selected_subj <- selectbox "👤 Select Subject:" (subject_ids csv_files) (sel_subj u) ;;
      selected_cond <- radio "🛌 Select Condition:" cond_options (sel_cond u) ;;
      selected_task <- radio "👁️ Select Task:" task_options (sel_task u) ;;
      r <- lift (build_filename selected_subj selected_cond selected_task) ;;
      df <- fetch r ;;
      selected_channels <-
        multiselect "🎚️ Select EEG channels to plot:" (eeg_channels df)
          (take 5 (eeg_channels df)) (sel_channels u) ;;
      describe_channels selected_channels ;;
      render df r selected_channels ;;
      emit (Markdown "### 🧠 EEG Electrode Visualizer") ;;
      selected_electrodes <-
        multiselect "Select EEG Electrodes to Highlight:" electrode_options []
          (sel_electrodes u) ;;
      brain_img <- lift (image_open "/Users/brandonfox/Downloads/Brain_image.png") ;;
      combined <- lift (annotate brain_img selected_electrodes) ;;
      emit (Picture combined "EEG Electrode Highlight")
  end.

(** What the page does once the table is loaded (lines 88 to 162); the
    page is [fetch] followed by this (see [page_after_pickers]). *)
Definition after_fetch (u : Selections) (r : Resolved) (df : DataFrame) : M unit :=
  selected_channels <-
    multiselect "🎚️ Select EEG channels to plot:" (eeg_channels df)
      (take 5 (eeg_channels df)) (sel_channels u) ;;
  describe_channels selected_channels ;;
  render df r selected_channels ;;
  emit (Markdown "### 🧠 EEG Electrode Visualizer") ;;
  selected_electrodes <-
    multiselect "Select EEG Electrodes to Highlight:" electrode_options []
      (sel_electrodes u) ;;
  brain_img <- lift (image_open "/Users/brandonfox/Downloads/Brain_image.png") ;;
  combined <- lift (annotate brain_img selected_electrodes) ;;
  emit (Picture combined "EEG Electrode Highlight").

(** The channels the page plots: the user's choice, or the first five
    channels when the picker is untouched (lines 91 to 93). *)
Definition chosen_channels (u : Selections) (df : DataFrame) : list string :=
  default (take 5 (eeg_channels df)) (sel_channels u).

(** What the channel picker and the expander add to the trace. *)
Definition channel_notes (df : DataFrame) (sel : list string) : list Element :=
  [ Multiselect "🎚️ Select EEG channels to plot:" (eeg_channels df)
      (take 5 (eeg_channels df));
    Expander "ℹ️ What do the EEG channels mean?" ] ++
  match sel with
  | [] => [Markdown "Select a channel above to see its meaning."]
  | _ => (λ ch, Markdown ("**" +:+ ch +:+ "**: " +:+ describe ch)) <$> sel
  end.

(** The chart of the selected channels against the time values [ts],
    or the notice shown for an empty selection. *)
Definition chart_or_notice (df : DataFrame) (r : Resolved) (ts : list cell)
    (sel : list string) : Element :=
  match sel with
  | [] => Info "No EEG channels selected."
  | _ =>
      PlotlyChart
        {| data := (λ ch, {| x := ts; y := default [] (Py.lookup df ch);
                             mode := "lines"; name := ch |}) <$> sel;
           layout := Some (figure_layout r) |}
  end.

(** What the electrode section adds to the trace before the picture. *)
Definition electrode_section : list Element :=
  [ Markdown "### 🧠 EEG Electrode Visualizer";
    Multiselect "Select EEG Electrodes to Highlight:" electrode_options [] ].

End Viewer.

(** ** The landing page helpers ([app/main.py], lines 16 to 27) *)

Module Home.

(** [page_exists(path)]: the path as given, under [pages], or under
    the current directory. *)
Definition page_exists (d : Disk) (path : string) : bool :=
  let candidates := [path; path_join "pages" path; path_join "." path] in
  existsb (path_exists d) candidates.

(** What [link_or_hint] puts on the page: [st.page_link] or
    [st.caption]. *)
Inductive Element :=
| PageLink (page label : string)
| Caption (body : string).

(** [link_or_hint(label, page_path, icon)]; [page_link] tells whether
    the installed Streamlit has [st.page_link]. *)
Definition link_or_hint (page_link : bool) (d : Disk) (label page_path icon : string)
  : Element :=
  if page_link && page_exists d page_path
  then PageLink page_path (icon +:+ " " +:+ label)
  else Caption (icon +:+ " Open via the **sidebar**: " +:+ label).

End Home.

(** ** The specification's wording, for comparison with the code *)

Module Spec.

(** The dataset key as the specification writes it:
    [sub-{subject_id}_{session_code}_{task_code}]. *)
Definition dataset_key (subject_id session_code task_code : string) : string :=
  "sub-" +:+ subject_id +:+ "_" +:+ session_code +:+ "_" +:+ task_code.

Definition session_codes : list string := ["ses-1"; "ses-2"].
Definition task_codes : list string := ["eyesopen"; "eyesclosed"].

(** The fallback text as the specification writes it. *)
Definition no_description : string := "no description available".

(** The subject of a file name as the specification describes it: the
    leading token with the [sub-] prefix stripped. *)
Definition subject_of (f : string) : string :=
  let token := item0 (split "_"%char f) in
  default token (strip_prefix "sub-" token).

Definition subject_ids (csv_files : list string) : list string :=
  sorted (elements (list_to_set (subject_of <$> csv_files) : gset string)).

End Spec.

(** ** Sample data *)

Module Sample.

Definition table : dict (list Z) :=
  [ ("Time", [0; 1; 2]%Z); ("Fp1", [10; 11; 12]%Z);
    ("Fz", [20; 21; 22]%Z); ("O1", [30; 31; 32]%Z) ].

(** A stand-in for the CSV reader: any file other than the empty one
    holds [table]. *)
Definition parse_csv (bytes : string) : result (dict (list Z)) :=
  if decide (bytes = "") then inl (OtherError "No columns to parse from file")
  else inr table.

Definition local_file : string := "data/eeg_csv/sub-01_ses-1_eyesopen.csv".

Definition disk : Disk :=
  {| files := {[ local_file := "Time,Fp1,Fz,O1" ]}; dirs := {[ "data"; "data/eeg_csv" ]} |}.

Definition world : @World Z := {| fs := disk; requests := []; ui := [] |}.

Definition empty_world : @World Z :=
  {| fs := {| files := {[ "data/eeg_csv/README.md" := "notes" ]};
              dirs := {[ "data"; "data/eeg_csv" ]} |};
     requests := []; ui := [] |}.

(** A store that holds the sleep-deprived recording of subject 01 and
    nothing else. *)
Definition hub (repo_id name : string) : result string :=
  if decide (repo_id = HF_REPO ∧ name = "sub-01_ses-2_eyesopen.csv")
  then inr "Time,Fp1,Fz,O1"
  else inl (OtherError ("404 Client Error. Entry Not Found for " +:+ name)).

Definition offline (repo_id name : string) : result string :=
  inl (OtherError "Connection error").

Definition no_functional (s : string) : option color := None.

Definition disc (xy : Z * Z * Z * Z) (px py : Z) : bool :=
  let '(x0, y0, x1, y1) := xy in
  let cx := ((x0 + x1) / 2)%Z in
  let cy := ((y0 + y1) / 2)%Z in
  let rad := ((x1 - x0) / 2)%Z in
  ((px - cx) * (px - cx) + (py - cy) * (py - cy) <=? rad * rad)%Z.

Definition grey : @Image := {| size := (850, 655)%Z; getpixel := λ _ _, (128, 128, 128, 255)%Z |}.

Definition image_open (path : string) : result (@Image) := inr grey.

Definition untouched : Selections :=
  {| sel_subj := None; sel_cond := None; sel_task := None;
     sel_channels := None; sel_electrodes := None |}.

Definition sleep_deprived : Selections :=
  {| sel_subj := Some "01"; sel_cond := Some "Sleep Deprived (SD)";
     sel_task := Some "Eyes Open"; sel_channels := Some ["Fp1"];
     sel_electrodes := Some [] |}.

(** The session [sleep_deprived] resolves to; its file is not on
    [disk]. *)
Definition resolved_sd : Resolved :=
  {| subj_str := "sub-01"; session_str := "ses-2"; task_str := "eyesopen";
     filename := "sub-01_ses-2_eyesopen.csv";
     file_path := "data/eeg_csv/sub-01_ses-2_eyesopen.csv" |}.


(** A table whose header has no Time column. *)
Definition no_time_table : dict (list Z) :=
  [ ("t", [0; 1; 2]%Z); ("Fp1", [10; 11; 12]%Z) ].

(** The session the untouched pickers resolve to on [disk]. *)
Definition resolved_ns : Resolved :=
  {| subj_str := "sub-01"; session_str := "ses-1"; task_str := "eyesopen";
     filename := "sub-01_ses-1_eyesopen.csv";
     file_path := "data/eeg_csv/sub-01_ses-1_eyesopen.csv" |}.

(** Everything at its default, with the electrode FP1 selected. *)
Definition highlight : Selections :=
  {| sel_subj := None; sel_cond := None; sel_task := None;
     sel_channels := None; sel_electrodes := Some ["FP1"] |}.

(** A project directory with the viewer page under [pages]. *)
Definition project : Disk :=
  {| files := {[ "pages/eeg_plotly_viewer.py" := "import streamlit as st" ]};
     dirs := {[ "pages" ]} |}.

(** A data directory whose one recording is of the subject [xsub-y]. *)
Definition inner_sub_world : @World Z :=
  {| fs := {| files := {[ "data/eeg_csv/sub-xsub-y_ses-1_eyesopen.csv" := "Time,Fp1,Fz,O1" ]};
              dirs := {[ "data"; "data/eeg_csv" ]} |};
     requests := []; ui := [] |}.

(** [world] after the file of [resolved_sd] has been downloaded. *)
Definition world_after_download : @World Z :=
  {| fs := write_file disk "data/eeg_csv/sub-01_ses-2_eyesopen.csv" "Time,Fp1,Fz,O1";
     requests := [(HF_REPO, "sub-01_ses-2_eyesopen.csv")];
     ui := [Spinner "📡 Downloading sub-01_ses-2_eyesopen.csv from Hugging Face..."] |}.

End Sample.

(** ** Properties *)

(** *** Dictionaries and strings *)

Section DictFacts.
Context {V : Type}.
Implicit Types (d : dict V) (k : string) (v : V).

Lemma lookup_None_not_key d k : k ∉ keys d → Py.lookup d k = None.
Proof.
  induction d as [|[k' v'] d IH]; simpl; [done|].
  intros Hk. apply not_elem_of_cons in Hk as [Hne Hk].
  case_decide; [congruence|]. by apply IH.
Qed.

Lemma lookup_Some_entry d k v : NoDup (keys d) → (k, v) ∈ d → Py.lookup d k = Some v.
Proof.
  induction d as [|[k' v'] d IH]; simpl; intros Hnd Hin.
  - by apply elem_of_nil in Hin.
  - apply NoDup_cons in Hnd as [Hfresh Hnd].
    apply elem_of_cons in Hin as [Heq|Hin].
    + simplify_eq. by case_decide.
    + case_decide as Hk; [|by apply IH].
      subst k'. exfalso. apply Hfresh.
      unfold keys. apply list_elem_of_fmap. by exists (k, v).
Qed.

Lemma lookup_key_is_Some d k : k ∈ keys d ↔ is_Some (Py.lookup d k).
Proof.
  induction d as [|[k' v'] d IH]; simpl.
  - split; [by intros ?%elem_of_nil | by intros [? ?]].
  - rewrite elem_of_cons. case_decide as Hk.
    + split; [eauto | by left].
    + rewrite IH. split; [intros [?|?]; [congruence|done] | by right].
Qed.

Lemma lookup_Some_in d k v : Py.lookup d k = Some v → (k, v) ∈ d.
Proof.
  induction d as [|[k' v'] d IH]; simpl; [done|].
  case_decide; intros ?; simplify_eq; [by left | right; by apply IH].
Qed.
End DictFacts.

Lemma string_app_assoc (a b c : string) : (a +:+ b) +:+ c = a +:+ (b +:+ c).
Proof.
  induction a as [|ch a IH]; [done|].
  change (String ch ((a +:+ b) +:+ c) = String ch (a +:+ (b +:+ c))).
  by rewrite IH.
Qed.

Lemma split_nonempty sep s : split sep s ≠ [].
Proof.
  destruct s as [|c s]; simpl; [done|].
  case_decide; [done|]. by destruct (split sep s).
Qed.

Lemma CHANNEL_INFO_keys_NoDup : NoDup (keys CHANNEL_INFO).
Proof. compute_done. Qed.

(** *** Session selector *)

(** C1, as the specification words it, does not hold: for subject 01,
    normal sleep, eyes open, the page builds the name
    [sub-01_ses-1_eyesopen.csv], which is not of the form
    [sub-01_{session_code}_{task_code}] for any codes of the tables. *)
Lemma build_filename_not_bare_key :
  ∃ r, build_filename "01" "Normal Sleep (NS)" "Eyes Open" = inr r ∧
       filename r = "sub-01_ses-1_eyesopen.csv" ∧
       ∀ ses tsk, ses ∈ Spec.session_codes → tsk ∈ Spec.task_codes →
                  filename r ≠ Spec.dataset_key "01" ses tsk.
Proof.
  eexists. split; [reflexivity|]. split; [reflexivity|].
  intros ses tsk Hs Ht. simpl.
  unfold Spec.session_codes, Spec.task_codes in *.
  repeat (apply elem_of_cons in Hs as [->|Hs]); [| |by apply elem_of_nil in Hs];
    repeat (apply elem_of_cons in Ht as [->|Ht]); try (by apply elem_of_nil in Ht);
    by vm_compute.
Qed.

(** C1 (amended): for every subject and every condition and task among
    the two offered ones, the page builds exactly the name
    [sub-{subject_id}_{session_code}_{task_code}.csv], the dataset key
    followed by [.csv], where the session code is the entry of the fixed
    table for the condition (ses-1 for normal sleep, ses-2 for sleep
    deprived) and the task code the entry for the task (eyesopen,
    eyesclosed); the local path is that name under the data directory.
    The result is a function of the three choices alone. *)
Theorem build_filename_key (subject_id cond task : string) :
  cond ∈ cond_options → task ∈ task_options →
  ∃ ses tsk,
    (cond, ses) ∈ [("Normal Sleep (NS)", "ses-1"); ("Sleep Deprived (SD)", "ses-2")] ∧
    (task, tsk) ∈ [("Eyes Open", "eyesopen"); ("Eyes Closed", "eyesclosed")] ∧
    build_filename subject_id cond task =
      inr {| subj_str := "sub-" +:+ subject_id;
             session_str := ses;
             task_str := tsk;
             filename := Spec.dataset_key subject_id ses tsk +:+ ".csv";
             file_path := "data/eeg_csv/" +:+ Spec.dataset_key subject_id ses tsk +:+ ".csv" |}.
Proof.
  unfold cond_options, task_options. intros Hc Ht.
  repeat (apply elem_of_cons in Hc as [->|Hc]); [| |by apply elem_of_nil in Hc];
    (repeat (apply elem_of_cons in Ht as [->|Ht]); [| |by apply elem_of_nil in Ht]).
  - exists "ses-1", "eyesopen". split_and!; [set_solver..|].
    unfold Spec.dataset_key. by rewrite !string_app_assoc.
  - exists "ses-1", "eyesclosed". split_and!; [set_solver..|].
    unfold Spec.dataset_key. by rewrite !string_app_assoc.
  - exists "ses-2", "eyesopen". split_and!; [set_solver..|].
    unfold Spec.dataset_key. by rewrite !string_app_assoc.
  - exists "ses-2", "eyesclosed". split_and!; [set_solver..|].
    unfold Spec.dataset_key. by rewrite !string_app_assoc.
Qed.

Lemma build_filename_key_witness :
  "Sleep Deprived (SD)" ∈ cond_options ∧ "Eyes Closed" ∈ task_options ∧
  ∃ ses tsk,
    (("Sleep Deprived (SD)", ses) : string * string)
      ∈ [("Normal Sleep (NS)", "ses-1"); ("Sleep Deprived (SD)", "ses-2")] ∧
    (("Eyes Closed", tsk) : string * string)
      ∈ [("Eyes Open", "eyesopen"); ("Eyes Closed", "eyesclosed")] ∧
    build_filename "07" "Sleep Deprived (SD)" "Eyes Closed" =
      inr {| subj_str := "sub-" +:+ "07";
             session_str := ses;
             task_str := tsk;
             filename := Spec.dataset_key "07" ses tsk +:+ ".csv";
             file_path := "data/eeg_csv/" +:+ Spec.dataset_key "07" ses tsk +:+ ".csv" |}.
Proof.
  assert (Hc : "Sleep Deprived (SD)" ∈ cond_options) by compute_done.
  assert (Ht : "Eyes Closed" ∈ task_options) by compute_done.
  split; [exact Hc|]. split; [exact Ht|].
  exact (build_filename_key "07" "Sleep Deprived (SD)" "Eyes Closed" Hc Ht).
Defined.

(** *** Channel descriptions *)

(** C7, as the specification words it, does not hold: the label FP1 is
    not in the catalogue, and the text returned for it is not the
    specification's lower-case one. *)
Lemma describe_fallback_not_lowercase :
  ("FP1" ∉ keys CHANNEL_INFO) ∧ describe "FP1" ≠ Spec.no_description.
Proof. split; compute_done. Qed.

(** C7 (amended): for every channel label, [describe] returns
    "No description available" (capital N) when the label is absent from
    the channel catalogue and the catalogue's exact description when it
    is present; in particular Fp1 is described as
    "Frontopolar left (near forehead)". *)
Theorem describe_catalog (ch : string) :
  (ch ∉ keys CHANNEL_INFO → describe ch = "No description available") ∧
  (∀ d, (ch, d) ∈ CHANNEL_INFO → describe ch = d) ∧
  describe "Fp1" = "Frontopolar left (near forehead)".
Proof.
  unfold describe, get. split_and!.
  - intros Hk. by rewrite lookup_None_not_key.
  - intros d Hd. by rewrite (lookup_Some_entry _ _ d CHANNEL_INFO_keys_NoDup Hd).
  - reflexivity.
Qed.

Lemma describe_catalog_witness :
  ("FP1" ∉ keys CHANNEL_INFO) ∧
  (("Cz", "Central midline (top of head)") : string * string) ∈ CHANNEL_INFO ∧
  describe "FP1" = "No description available" ∧
  describe "Cz" = "Central midline (top of head)".
Proof.
  assert (Habsent : "FP1" ∉ keys CHANNEL_INFO) by compute_done.
  assert (Hpresent : (("Cz", "Central midline (top of head)") : string * string)
                       ∈ CHANNEL_INFO) by compute_done.
  split; [exact Habsent|]. split; [exact Hpresent|]. split.
  - exact (proj1 (describe_catalog "FP1") Habsent).
  - exact (proj1 (proj2 (describe_catalog "Cz")) _ Hpresent).
Defined.

(** *** Subject catalogue *)

Lemma subject_ids_elem (csv_files : list string) (s : string) :
  s ∈ subject_ids csv_files ↔ ∃ f, f ∈ csv_files ∧ s = subject_of f.
Proof.
  unfold subject_ids, sorted.
  rewrite merge_sort_Permutation, elem_of_elements, elem_of_list_to_set, list_elem_of_fmap.
  split; intros (f & ? & ?); by exists f.
Qed.

Lemma replace_go_absent (old new s : string) :
  contains old s = false → replace_go old new 0 s = s.
Proof.
  induction s as [|c s IH]; [done|].
  intros [Hp Hs]%orb_false_iff. simpl in *.
  destruct old as [|o old]; [done|].
  simpl in Hp. rewrite Hp. by rewrite IH.
Qed.

Lemma split_before_sep (sep : ascii) (a rest : string) :
  contains (String sep "") a = false →
  item0 (split sep (a +:+ String sep rest)) = a.
Proof.
  induction a as [|c a IH]; intros Ha.
  - simpl. by rewrite decide_True.
  - apply orb_false_iff in Ha as [Hc Ha]. simpl in Hc.
    change (String c a +:+ String sep rest) with (String c (a +:+ String sep rest)).
    simpl. rewrite decide_False.
    + specialize (IH Ha). destruct (split sep (a +:+ String sep rest)) eqn:Hsplit.
      * by apply split_nonempty in Hsplit.
      * simpl in *. by rewrite IH.
    + intros ->. destruct (ascii_dec sep sep); [by destruct a|done].
Qed.

(** For a file named [sub-{id}_...] whose [id] has no underscore and no
    further [sub-], the subject listed is [id]. *)
Lemma subject_of_convention (id rest : string) :
  contains "_" id = false → contains "sub-" id = false →
  subject_of ("sub-" +:+ id +:+ "_" +:+ rest) = id.
Proof.
  intros Hu Hs. unfold subject_of.
  change ("sub-" +:+ id +:+ "_" +:+ rest) with ("sub-" +:+ (id +:+ String "_" rest)).
  rewrite <- string_app_assoc.
  rewrite split_before_sep.
  - assert (Hpre : String.prefix "sub-" ("sub-" +:+ id) = true)
      by (destruct id; reflexivity).
    unfold replace.
    change ("sub-" +:+ id) with (String "s" (String "u" (String "b" (String "-" id)))) in *.
    cbn [replace_go]. rewrite Hpre. cbn [String.length Nat.sub replace_go].
    change ("" +:+ ?t) with t.
    by apply replace_go_absent.
  - change (contains "_" ("sub-" +:+ id)) with (contains "_" id). done.
Qed.

(** The file [sub-xsub-y_ses-1_eyesopen.csv] follows the naming
    convention with subject [xsub-y]; stripping the [sub-] prefix of its
    leading token leaves [xsub-y], while the page lists the subject as
    [xy]. *)
Lemma subject_ids_not_prefix_strip :
  subject_ids ["sub-xsub-y_ses-1_eyesopen.csv"] = ["xy"] ∧
  Spec.subject_ids ["sub-xsub-y_ses-1_eyesopen.csv"] = ["xsub-y"] ∧
  subject_ids ["sub-xsub-y_ses-1_eyesopen.csv"]
    ≠ Spec.subject_ids ["sub-xsub-y_ses-1_eyesopen.csv"].
Proof. split_and!; [by vm_compute | by vm_compute | by vm_compute]. Qed.

(** What line 53 computes: for every list of CSV file names, the
    subject list is sorted in ascending order and free of duplicates,
    and its members are exactly the leading tokens (the text before the
    first underscore) of the file names with every occurrence of [sub-]
    removed. *)
Theorem subject_ids_sorted_nodup (csv_files : list string) :
  StronglySorted String.le (subject_ids csv_files) ∧
  NoDup (subject_ids csv_files) ∧
  ∀ s, s ∈ subject_ids csv_files ↔
       ∃ f, f ∈ csv_files ∧ s = replace "sub-" "" (item0 (split "_"%char f)).
Proof.
  split_and!.
  - unfold subject_ids, sorted. apply (StronglySorted_merge_sort _).
  - unfold subject_ids, sorted. rewrite merge_sort_Permutation. apply NoDup_elements.
  - intros s. apply subject_ids_elem.
Qed.

(** C10 on the code: line 53 removes every [sub-] of the leading token,
    not only the prefix, while line 64 puts back one prefix.  With the
    single file [sub-xsub-y_ses-1_eyesopen.csv] in the data directory
    the picker offers the subject [xy] where stripping the prefix gives
    [xsub-y]; the untouched pickers then resolve to
    [sub-xy_ses-1_eyesopen.csv], which is not the file on disk, and the
    run asks the store for that name and stops on the failure instead
    of loading the cached recording. *)
Theorem subject_ids_drops_inner_sub :
  csv_files_of Sample.inner_sub_world = ["sub-xsub-y_ses-1_eyesopen.csv"] ∧
  subject_ids ["sub-xsub-y_ses-1_eyesopen.csv"] = ["xy"] ∧
  Spec.subject_ids ["sub-xsub-y_ses-1_eyesopen.csv"] = ["xsub-y"] ∧
  selected_session Sample.untouched ["sub-xsub-y_ses-1_eyesopen.csv"]
    = inr {| subj_str := "sub-xy"; session_str := "ses-1"; task_str := "eyesopen";
             filename := "sub-xy_ses-1_eyesopen.csv";
             file_path := "data/eeg_csv/sub-xy_ses-1_eyesopen.csv" |} ∧
  path_exists (fs Sample.inner_sub_world) "data/eeg_csv/sub-xsub-y_ses-1_eyesopen.csv"
    = true ∧
  path_exists (fs Sample.inner_sub_world) "data/eeg_csv/sub-xy_ses-1_eyesopen.csv"
    = false ∧
  fst (page Sample.parse_csv Sample.offline Sample.no_functional Sample.disc
            Sample.image_open Sample.untouched Sample.inner_sub_world) = Stopped ∧
  requests (snd (page Sample.parse_csv Sample.offline Sample.no_functional Sample.disc
                      Sample.image_open Sample.untouched Sample.inner_sub_world))
    = [(HF_REPO, "sub-xy_ses-1_eyesopen.csv")].
Proof.
  split_and!.
  - by vm_compute.
  - by vm_compute.
  - by vm_compute.
  - by vm_compute.
  - by vm_compute.
  - by vm_compute.
  - by vm_compute.
  - by vm_compute.
Qed.

(** *** The page as a whole *)

Section PageFacts.
Context {cell : Type}.
Variable parse_csv : string → result (dict (list cell)).
Variable functional_color : string → option color.
Variable ellipse_covers : Z * Z * Z * Z → Z → Z → bool.
Variable image_open : string → result (@Image).

Implicit Types (w : @World cell) (u : Selections) (r : Resolved).

(** C9: when the data directory is there and holds no CSV file, the run
    shows the page header and the warning "No EEG CSV files found" and
    stops there: no subject picker or any other widget is shown, no
    request is sent to the store, the disk is unchanged and nothing is
    plotted or drawn; no default subject is put in place of the empty
    catalogue. *)
Theorem page_no_csv_stops hub u w :
  isdir (fs w) DATA_DIR = true →
  csv_files_of w = [] →
  page parse_csv hub functional_color ellipse_covers image_open u w =
    (Stopped,
     shown w [ PageConfig "EEG Plotly Viewer" "wide";
               Title "🧠 EEG Viewer (Plotly Interactive)";
               Warning "No EEG CSV files found in `data/eeg_csv/`." ]).
Proof.
  unfold csv_files_of. intros Hdir Hnone.
  unfold page, bind, emit, os_listdir, stop, shown. simpl.
  rewrite Hdir, Hnone. simpl. by rewrite <- !app_assoc.
Qed.

Lemma pd_read_csv_world p w : snd (pd_read_csv parse_csv p w) = w.
Proof.
  unfold pd_read_csv. destruct (read_file (fs w) p); [done|].
  by destruct (parse_csv _).
Qed.

Lemma fetch_local hub r w :
  path_exists (fs w) (file_path r) = true →
  fetch parse_csv hub r w = pd_read_csv parse_csv (file_path r) w.
Proof. intros He. unfold fetch, bind, os_path_exists. by rewrite He. Qed.

Lemma fetch_remote_fail hub r w e :
  path_exists (fs w) (file_path r) = false →
  hub HF_REPO (filename r) = inl e →
  fetch parse_csv hub r w =
    (Stopped,
     {| fs := fs w;
        requests := requests w ++ [(HF_REPO, filename r)];
        ui := ui w ++ failure_notice r e |}).
Proof.
  intros He Hh.
  unfold fetch, bind, os_path_exists, try_except, hf_hub_download, emit, stop, shown.
  rewrite He. simpl. rewrite Hh. simpl. by rewrite <- app_assoc.
Qed.

Lemma fetch_remote_ok hub r w bytes :
  path_exists (fs w) (file_path r) = false →
  hub HF_REPO (filename r) = inr bytes →
  fetch parse_csv hub r w =
    pd_read_csv parse_csv (path_join DATA_DIR (filename r))
      {| fs := write_file (fs w) (path_join DATA_DIR (filename r)) bytes;
         requests := requests w ++ [(HF_REPO, filename r)];
         ui := ui w ++ [Spinner ("📡 Downloading " +:+ filename r
                                   +:+ " from Hugging Face...")] |}.
Proof.
  intros He Hh.
  unfold fetch, bind, os_path_exists, try_except, hf_hub_download, emit, shown.
  rewrite He. simpl. by rewrite Hh.
Qed.

Lemma build_filename_path subject_id cond task r :
  build_filename subject_id cond task = inr r →
  file_path r = path_join DATA_DIR (filename r).
Proof.
  unfold build_filename.
  destruct (getitem cond_map cond); [done|].
  destruct (getitem task_map task); [done|].
  by intros [= <-].
Qed.


Lemma listdir_nonempty_isdir (d : Disk) dir : listdir d dir ≠ [] → isdir d dir = true.
Proof.
  unfold listdir, isdir. intros Hne.
  destruct (omap _ (paths d)) as [|entry rest] eqn:Hentries; [done|].
  assert (Hin : entry ∈ entry :: rest) by left.
  rewrite <- Hentries in Hin.
  apply list_elem_of_omap in Hin as (q & Hq & Hstrip).
  apply orb_true_iff. right. apply existsb_exists.
  exists q. split; [by apply list_elem_of_In|].
  unfold strip_prefix in Hstrip. unfold startswith.
  by destruct (String.prefix (dir +:+ "/") q).
Qed.

(** Up to the download, a run with CSV files on disk and a resolvable
    session is the header, the three pickers and then [fetch]. *)
Lemma page_reaches_fetch hub u w r :
  csv_files_of w ≠ [] →
  selected_session u (csv_files_of w) = inr r →
  ∀ o w',
    fetch parse_csv hub r (shown w (header ++ pickers (csv_files_of w))) = (o, w') →
    (∀ df, o ≠ Done df) →
    page parse_csv hub functional_color ellipse_covers image_open u w
      = (match o with Done _ => Stopped | Stopped => Stopped | Raised e => Raised e end, w').
Proof.
  unfold csv_files_of, selected_session. intros Hsome Hr o w' Hf Ho.
  assert (Hdir : isdir (fs w) DATA_DIR = true).
  { apply listdir_nonempty_isdir. intros Hnil. by rewrite Hnil in Hsome. }
  unfold page. unfold bind at 1 2 3. unfold emit, os_listdir. simpl.
  rewrite Hdir.
  destruct (filter _ (listdir (fs w) DATA_DIR)) as [|f fs'] eqn:Hcsv; [done|].
  unfold bind at 1 2 3 4 5. unfold selectbox, radio, bind, emit, ret, lift, shown in *.
  simpl in *. rewrite Hr. simpl.
  rewrite <- !app_assoc. simpl.
  unfold pickers in Hf. rewrite Hf.
  destruct o; [by destruct (Ho a)|done|done].
Qed.

(** C3: when the resolved file is not on disk and the store answers
    the one request with an exception [e] (object not found, network
    failure, store unreachable), [fetch] returns no table: it shows
    the error "Failed to retrieve ... from Hugging Face" carrying the
    text of [e] and stops.  Exactly one request has been sent (no
    retry), the disk is unchanged, and the run of the page ends there:
    after the header and the three pickers the trace holds the
    download notice and the error, and no channel picker, chart or
    picture. *)
Theorem fetch_unavailable_stops hub u w r e :
  csv_files_of w ≠ [] →
  selected_session u (csv_files_of w) = inr r →
  path_exists (fs w) (file_path r) = false →
  hub HF_REPO (filename r) = inl e →
  fetch parse_csv hub r w =
    (Stopped,
     {| fs := fs w;
        requests := requests w ++ [(HF_REPO, filename r)];
        ui := ui w ++ failure_notice r e |}) ∧
  page parse_csv hub functional_color ellipse_covers image_open u w =
    (Stopped,
     {| fs := fs w;
        requests := requests w ++ [(HF_REPO, filename r)];
        ui := ui w ++ header ++ pickers (csv_files_of w) ++ failure_notice r e |}).
Proof.
  intros Hsome Hr He Hh. split; [by apply fetch_remote_fail|].
  rewrite (page_reaches_fetch hub u w r Hsome Hr Stopped
             {| fs := fs w;
                requests := requests w ++ [(HF_REPO, filename r)];
                ui := ui w ++ header ++ pickers (csv_files_of w) ++ failure_notice r e |});
    [done| |done].
  rewrite (fetch_remote_fail hub r _ e); [|done|done].
  simpl. by rewrite <- !app_assoc.
Qed.


End PageFacts.

(** *** Channel renderer *)

Section RenderFacts.
Context {cell : Type}.
Implicit Types (df : @DataFrame cell) (w : @World cell) (r : Resolved).

Lemma eeg_channels_column df ch :
  ch ∈ eeg_channels df → is_Some (Py.lookup df ch).
Proof.
  unfold eeg_channels. intros [_ Hk]%list_elem_of_filter.
  by apply lookup_key_is_Some.
Qed.

Lemma add_traces_ok df ts chs fig :
  Forall (λ ch, ch ∈ eeg_channels df) chs →
  Py.lookup df time_col = Some ts →
  ∃ traces,
    add_traces df chs fig = inr {| data := data fig ++ traces; layout := layout fig |} ∧
    Forall2 (is_trace_of df ts) chs traces.
Proof.
  intros Hchs Ht. revert fig.
  induction Hchs as [|ch chs Hch _ IH]; intros fig; simpl.
  - exists []. rewrite app_nil_r. split; [by destruct fig|constructor].
  - unfold getitem. rewrite Ht.
    destruct (eeg_channels_column df ch Hch) as [ys Hys]. rewrite Hys.
    destruct (IH (add_trace fig {| x := ts; y := ys; mode := "lines"; name := ch |}))
      as (traces & -> & Htr).
    exists ({| x := ts; y := ys; mode := "lines"; name := ch |} :: traces).
    simpl. rewrite <- app_assoc. split; [done|].
    constructor; [by repeat split|done].
Qed.

(** C4: for a table with a Time column and a selection made of its
    non-time columns: an empty selection yields the notice
    "No EEG channels selected." and no chart; a non-empty selection
    yields one chart with one trace per selected channel, in the
    order of the selection, each with the Time column as X values and
    the channel's column, as loaded, as Y values; a selection of the
    single channel X yields exactly one trace, with Y the values of
    column X and X the Time column. *)
Theorem render_traces df r (sel : list string) (ts : list cell) w :
  Forall (λ ch, ch ∈ eeg_channels df) sel →
  Py.lookup df time_col = Some ts →
  (sel = [] →
   render df r sel w = (Done (), shown w [Info "No EEG channels selected."])) ∧
  (sel ≠ [] →
   ∃ traces,
     render df r sel w =
       (Done (), shown w [PlotlyChart {| data := traces;
                                         layout := Some (figure_layout r) |}]) ∧
     Forall2 (is_trace_of df ts) sel traces) ∧
  (∀ X ys, sel = [X] → Py.lookup df X = Some ys →
     render df r sel w =
       (Done (),
        shown w [PlotlyChart
                   {| data := [{| x := ts; y := ys; mode := "lines"; name := X |}];
                      layout := Some (figure_layout r) |}])).
Proof.
  intros Hsel Ht. split_and!.
  - by intros ->.
  - intros Hne.
    destruct (add_traces_ok df ts sel {| data := []; layout := None |} Hsel Ht)
      as (traces & Hadd & Htr).
    exists traces. split; [|done].
    destruct sel as [|ch sel]; [done|].
    unfold render, build_figure, bind, lift. rewrite Hadd. done.
  - intros X ys -> HX.
    unfold render, build_figure, bind, lift. simpl.
    unfold getitem. by rewrite Ht, HX.
Qed.

End RenderFacts.

(** *** Electrode overlay *)

Section OverlayFacts.
Variable functional_color : string → option color.
Variable ellipse_covers : Z * Z * Z * Z → Z → Z → bool.

Local Open Scope Z_scope.

(** C6: with no electrode selected, [annotate] draws no marker (the
    overlay stays as created, fully transparent) and returns an image
    of the size of the base image whose every pixel equals the base
    image's. *)
Theorem annotate_empty_identity (brain_img : Image) :
  draw_markers functional_color ellipse_covers
      (Image_new (size brain_img) (255, 255, 255, 0)) []
    = inr (Image_new (size brain_img) (255, 255, 255, 0)) ∧
  ∃ combined,
    annotate functional_color ellipse_covers brain_img [] = inr combined ∧
    size combined = size brain_img ∧
    ∀ px py, getpixel combined px py = getpixel brain_img px py.
Proof.
  split; [done|].
  unfold annotate, alpha_composite. simpl.
  case_decide; [|done].
  eexists. split; [done|]. split; [done|].
  intros px py. simpl. by destruct (getpixel brain_img px py) as [[[? ?] ?] ?].
Qed.

Lemma getcolor_raises_ValueError (s : string) (e : Exception) :
  getcolor functional_color s = inl e → ∃ msg, e = ValueError msg.
Proof.
  unfold getcolor.
  destruct (getrgb functional_color s) as [e'|[[[? ?] ?] ?]] eqn:Hg; [|done].
  intros [= <-]. revert Hg. unfold getrgb.
  repeat case_match; intros [= <-]; eauto.
Qed.

Lemma draw_markers_no_KeyError (sel : list string) :
  Forall (λ elec, elec ∈ electrode_options) sel →
  ∀ overlay k,
    draw_markers functional_color ellipse_covers overlay sel ≠ inl (KeyError k).
Proof.
  induction 1 as [|elec sel Helec _ IH]; intros overlay k; simpl; [done|].
  unfold getitem.
  destruct (Py.lookup electrode_coords elec) as [[ex ey]|] eqn:Hxy.
  2:{ exfalso. revert Hxy. clear -Helec. unfold electrode_options in Helec.
      repeat (apply elem_of_cons in Helec as [->|Helec]); try done.
      by apply elem_of_nil in Helec. }
  destruct (Py.lookup electrode_colors elec) as [c|] eqn:Hc.
  2:{ apply (lookup_key_is_Some electrode_colors) in Helec as [? ?]. congruence. }
  unfold ellipse.
  destruct (getcolor _ _) as [e|ink] eqn:Hink.
  - apply getcolor_raises_ValueError in Hink as [msg ->]. done.
  - apply IH.
Qed.

(** C8: the electrodes offered for selection are exactly those with a
    known coordinate; for each of them both the coordinate and the
    colour lookup succeed, so for a selection drawn from the offered
    options [annotate] never ends in a missing-key error. *)
Theorem offered_electrodes_have_coords :
  electrode_options = keys electrode_coords ∧
  (∀ elec, elec ∈ electrode_options ↔ is_Some (Py.lookup electrode_coords elec)) ∧
  (∀ elec, elec ∈ electrode_options →
     is_Some (Py.lookup electrode_coords elec) ∧
     is_Some (Py.lookup electrode_colors elec)) ∧
  (∀ (brain_img : Image) sel k,
     Forall (λ elec, elec ∈ electrode_options) sel →
     annotate functional_color ellipse_covers brain_img sel ≠ inl (KeyError k)).
Proof.
  assert (Hkeys : electrode_options = keys electrode_coords) by reflexivity.
  split_and!; [done| | |].
  - intros elec. rewrite Hkeys. apply lookup_key_is_Some.
  - intros elec Helec. split.
    + apply lookup_key_is_Some. by rewrite <- Hkeys.
    + by apply lookup_key_is_Some.
  - intros brain_img sel k Hsel. unfold annotate.
    destruct (draw_markers _ _ _ sel) as [e|overlay] eqn:Hd.
    + intros [= ->]. by eapply draw_markers_no_KeyError.
    + unfold alpha_composite. by case_decide.
Qed.

(** C5 on the code: as soon as the selection starts with an offered
    electrode, Pillow is asked to fill with the electrode's colour
    name followed by [80], which is not a colour it knows;
    [annotate] raises [ValueError] and returns no image. *)
Theorem annotate_selected_raises (brain_img : Image) (elec : string) (rest : list string) :
  elec ∈ electrode_options →
  ∃ c, Py.lookup electrode_colors elec = Some c ∧
       annotate functional_color ellipse_covers brain_img (elec :: rest)
         = inl (ValueError ("unknown color specifier: '" +:+ c +:+ "80'")).
Proof.
  unfold electrode_options. intros Helec.
  repeat (apply elem_of_cons in Helec as [->|Helec]);
    try (by apply elem_of_nil in Helec);
    eexists; (split; [reflexivity|]); reflexivity.
Qed.

End OverlayFacts.

(** *** The statements at concrete inputs *)

Lemma page_no_csv_stops_witness :
  isdir (fs Sample.empty_world) DATA_DIR = true ∧
  csv_files_of Sample.empty_world = [] ∧
  page Sample.parse_csv Sample.hub Sample.no_functional Sample.disc Sample.image_open
       Sample.untouched Sample.empty_world =
    (Stopped,
     shown Sample.empty_world
       [ PageConfig "EEG Plotly Viewer" "wide";
         Title "🧠 EEG Viewer (Plotly Interactive)";
         Warning "No EEG CSV files found in `data/eeg_csv/`." ]).
Proof.
  assert (Hdir : isdir (fs Sample.empty_world) DATA_DIR = true)
    by (vm_compute; reflexivity).
  assert (Hnone : csv_files_of Sample.empty_world = []) by (vm_compute; reflexivity).
  split; [exact Hdir|]. split; [exact Hnone|].
  exact (page_no_csv_stops Sample.parse_csv Sample.no_functional Sample.disc
           Sample.image_open Sample.hub Sample.untouched Sample.empty_world Hdir Hnone).
Defined.

Lemma fetch_unavailable_stops_witness :
  csv_files_of Sample.world ≠ [] ∧
  selected_session Sample.sleep_deprived (csv_files_of Sample.world)
    = inr Sample.resolved_sd ∧
  path_exists (fs Sample.world) (file_path Sample.resolved_sd) = false ∧
  Sample.offline HF_REPO (filename Sample.resolved_sd)
    = inl (OtherError "Connection error") ∧
  page Sample.parse_csv Sample.offline Sample.no_functional Sample.disc Sample.image_open
       Sample.sleep_deprived Sample.world =
    (Stopped,
     {| fs := fs Sample.world;
        requests := requests Sample.world ++ [(HF_REPO, filename Sample.resolved_sd)];
        ui := ui Sample.world ++ header ++ pickers (csv_files_of Sample.world)
                ++ failure_notice Sample.resolved_sd (OtherError "Connection error") |}).
Proof.
  assert (H1 : csv_files_of Sample.world ≠ []) by (vm_compute; discriminate).
  assert (H2 : selected_session Sample.sleep_deprived (csv_files_of Sample.world)
               = inr Sample.resolved_sd) by (vm_compute; reflexivity).
  assert (H3 : path_exists (fs Sample.world) (file_path Sample.resolved_sd) = false)
    by (vm_compute; reflexivity).
  assert (H4 : Sample.offline HF_REPO (filename Sample.resolved_sd)
               = inl (OtherError "Connection error")) by reflexivity.
  split; [exact H1|]. split; [exact H2|]. split; [exact H3|]. split; [exact H4|].
  exact (proj2 (fetch_unavailable_stops Sample.parse_csv Sample.no_functional Sample.disc
                  Sample.image_open Sample.offline Sample.sleep_deprived Sample.world
                  Sample.resolved_sd _ H1 H2 H3 H4)).
Defined.


Lemma render_traces_witness :
  Forall (λ ch, ch ∈ eeg_channels Sample.table) ["O1"] ∧
  Py.lookup Sample.table time_col = Some [0; 1; 2]%Z ∧
  render Sample.table Sample.resolved_sd ["O1"] Sample.world =
    (Done (),
     shown Sample.world
       [PlotlyChart
          {| data := [{| x := [0; 1; 2]%Z; y := [30; 31; 32]%Z;
                         mode := "lines"; name := "O1" |}];
             layout := Some (figure_layout Sample.resolved_sd) |}]).
Proof.
  assert (H1 : Forall (λ ch, ch ∈ eeg_channels Sample.table) ["O1"]) by compute_done.
  assert (H2 : Py.lookup Sample.table time_col = Some [0; 1; 2]%Z) by reflexivity.
  split; [exact H1|]. split; [exact H2|].
  exact (proj2 (proj2 (render_traces Sample.table Sample.resolved_sd ["O1"] _
                         Sample.world H1 H2))
           "O1" [30; 31; 32]%Z eq_refl eq_refl).
Defined.

Lemma offered_electrodes_have_coords_witness :
  "FZ" ∈ electrode_options ∧
  is_Some (Py.lookup electrode_coords "FZ") ∧
  is_Some (Py.lookup electrode_colors "FZ").
Proof.
  assert (H1 : "FZ" ∈ electrode_options) by compute_done.
  split; [exact H1|].
  exact (proj1 (proj2 (proj2 (offered_electrodes_have_coords
                                Sample.no_functional Sample.disc))) "FZ" H1).
Defined.

Lemma annotate_selected_raises_witness :
  "FP1" ∈ electrode_options ∧
  ∃ c, Py.lookup electrode_colors "FP1" = Some c ∧
       annotate Sample.no_functional Sample.disc Sample.grey ["FP1"]
         = inl (ValueError ("unknown color specifier: '" +:+ c +:+ "80'")).
Proof.
  assert (H1 : "FP1" ∈ electrode_options) by compute_done.
  split; [exact H1|].
  exact (annotate_selected_raises Sample.no_functional Sample.disc Sample.grey "FP1" [] H1).
Defined.

(** ** Further properties of the page *)

(** *** Subject catalogue and session selector *)

Lemma subject_ids_StronglySorted (csv_files : list string) :
  StronglySorted String.le (subject_ids csv_files).
Proof. unfold subject_ids, sorted. apply (StronglySorted_merge_sort _). Qed.

Lemma subject_ids_NoDup (csv_files : list string) : NoDup (subject_ids csv_files).
Proof.
  unfold subject_ids, sorted. rewrite merge_sort_Permutation. apply NoDup_elements.
Qed.

(** X1: as soon as there is one CSV file, the subject picker has an
    option to offer; the option it starts on (the first of the list) is
    the least subject in the order of [sorted]. *)
Theorem subject_ids_default (csv_files : list string) :
  csv_files ≠ [] →
  ∃ s rest,
    subject_ids csv_files = s :: rest ∧
    item0 (subject_ids csv_files) = s ∧
    ∀ s', s' ∈ subject_ids csv_files → String.le s s'.
Proof.
  intros Hne. destruct csv_files as [|f fs']; [done|].
  assert (Hin : subject_of f ∈ subject_ids (f :: fs')).
  { apply subject_ids_elem. exists f. split; [left|done]. }
  pose proof (subject_ids_StronglySorted (f :: fs')) as Hsorted.
  destruct (subject_ids (f :: fs')) as [|s rest]; [by apply elem_of_nil in Hin|].
  exists s, rest. split_and!; [done..|].
  apply StronglySorted_inv in Hsorted as [_ Hall].
  intros s' [->|Hs']%elem_of_cons; [done|].
  by eapply Forall_forall in Hall.
Qed.

Lemma subject_ids_default_witness :
  ["sub-02_ses-1_eyesopen.csv"; "sub-01_ses-2_eyesclosed.csv"] ≠ [] ∧
  ∃ s rest,
    subject_ids ["sub-02_ses-1_eyesopen.csv"; "sub-01_ses-2_eyesclosed.csv"] = s :: rest ∧
    item0 (subject_ids ["sub-02_ses-1_eyesopen.csv"; "sub-01_ses-2_eyesclosed.csv"]) = s ∧
    ∀ s', s' ∈ subject_ids ["sub-02_ses-1_eyesopen.csv"; "sub-01_ses-2_eyesclosed.csv"] →
          String.le s s'.
Proof.
  assert (H : ["sub-02_ses-1_eyesopen.csv"; "sub-01_ses-2_eyesclosed.csv"] ≠ @nil string)
    by discriminate.
  split; [exact H|].
  exact (subject_ids_default _ H).
Defined.

(** X2: the subject list depends only on which file names are there,
    not on the order in which the directory lists them nor on
    repetitions. *)
Theorem subject_ids_listing_order (csv_files csv_files' : list string) :
  (∀ f, f ∈ csv_files ↔ f ∈ csv_files') →
  subject_ids csv_files = subject_ids csv_files'.
Proof.
  intros Hsame.
  apply (StronglySorted_unique String.le);
    [apply subject_ids_StronglySorted..|].
  apply NoDup_Permutation; [apply subject_ids_NoDup..|].
  intros s. rewrite !subject_ids_elem.
  split; intros (f & Hf & ->); exists f; (split; [by apply Hsame|done]).
Qed.

Lemma subject_ids_listing_order_witness :
  (∀ f, f ∈ ["sub-02_a.csv"; "sub-01_a.csv"; "sub-02_b.csv"]
        ↔ f ∈ ["sub-01_a.csv"; "sub-02_b.csv"; "sub-02_a.csv"; "sub-01_a.csv"]) ∧
  subject_ids ["sub-02_a.csv"; "sub-01_a.csv"; "sub-02_b.csv"]
    = subject_ids ["sub-01_a.csv"; "sub-02_b.csv"; "sub-02_a.csv"; "sub-01_a.csv"].
Proof.
  assert (H : ∀ f, f ∈ ["sub-02_a.csv"; "sub-01_a.csv"; "sub-02_b.csv"]
                   ↔ f ∈ ["sub-01_a.csv"; "sub-02_b.csv"; "sub-02_a.csv"; "sub-01_a.csv"]).
  { intros f. rewrite !elem_of_cons, !elem_of_nil. tauto. }
  split; [exact H|].
  exact (subject_ids_listing_order _ _ H).
Defined.

(** X3: the file name is built exactly when the condition and the task
    are keys of their tables.  Otherwise the lookup raises [KeyError]
    for the offending label, the condition being looked up first. *)
Theorem build_filename_KeyError (subject_id cond task : string) :
  (cond ∈ cond_options ∧ task ∈ task_options ∧
   ∃ r, build_filename subject_id cond task = inr r) ∨
  ((cond ∉ cond_options) ∧ build_filename subject_id cond task = inl (KeyError cond)) ∨
  (cond ∈ cond_options ∧ (task ∉ task_options) ∧
   build_filename subject_id cond task = inl (KeyError task)).
Proof.
  assert (Hc : keys cond_map = cond_options) by reflexivity.
  assert (Ht : keys task_map = task_options) by reflexivity.
  unfold build_filename, getitem.
  destruct (Py.lookup cond_map cond) as [ses|] eqn:Hses.
  - assert (cond ∈ cond_options).
    { rewrite <- Hc. apply lookup_key_is_Some. eauto. }
    destruct (Py.lookup task_map task) as [tsk|] eqn:Htsk.
    + left. split_and!; [done| |eauto].
      rewrite <- Ht. apply lookup_key_is_Some. eauto.
    + right. right. split_and!; [done| |done].
      rewrite <- Ht. intros [? ?]%lookup_key_is_Some. congruence.
  - right. left. split; [|done].
    rewrite <- Hc. intros [? ?]%lookup_key_is_Some. congruence.
Qed.

Lemma string_app_length (a b : string) :
  String.length (a +:+ b) = String.length a + String.length b.
Proof.
  induction a as [|c a IH]; [done|].
  change (String c a +:+ b) with (String c (a +:+ b)). simpl. by rewrite IH.
Qed.

(** Two texts that end in parts of the same length and are equal as a
    whole agree part by part. *)
Lemma string_app_same_length (a b x y : string) :
  String.length x = String.length y → a +:+ x = b +:+ y → a = b ∧ x = y.
Proof.
  intros Hlen. revert b.
  induction a as [|c a IH]; intros [|c' b] Heq.
  - done.
  - exfalso. change ("" +:+ x) with x in Heq. subst x.
    change (String c' b +:+ y) with (String c' (b +:+ y)) in Hlen.
    simpl in Hlen. rewrite string_app_length in Hlen. lia.
  - exfalso. change ("" +:+ y) with y in Heq. subst y.
    change (String c a +:+ x) with (String c (a +:+ x)) in Hlen.
    simpl in Hlen. rewrite string_app_length in Hlen. lia.
  - change (String c (a +:+ x) = String c' (b +:+ y)) in Heq.
    injection Heq as -> Heq. destruct (IH b Heq) as [-> ->]. done.
Qed.

Lemma string_app_longer (a b x p y : string) :
  String.length x = String.length y → a +:+ x = b +:+ (p +:+ y) → x = y.
Proof.
  intros Hlen Heq. rewrite <- string_app_assoc in Heq.
  by apply string_app_same_length in Heq as [_ ?].
Qed.

(** Compares the fixed endings of two file names in [H]. *)
Ltac compare_endings H :=
  match type of H with
  | ?a +:+ ?X1 = ?b +:+ ?X2 =>
      let n1 := eval vm_compute in (String.length X1) in
      let n2 := eval vm_compute in (String.length X2) in
      first
        [ apply string_app_same_length in H as [? ?]; [|reflexivity]
        | let p := eval vm_compute in (String.substring 0 (n2 - n1) X2) in
          let y := eval vm_compute in (String.substring (n2 - n1) n1 X2) in
          change X2 with (p +:+ y) in H;
          apply string_app_longer in H; [|reflexivity]
        | symmetry in H;
          let p := eval vm_compute in (String.substring 0 (n1 - n2) X1) in
          let y := eval vm_compute in (String.substring (n1 - n2) n2 X1) in
          change X1 with (p +:+ y) in H;
          apply string_app_longer in H; [|reflexivity] ]
  end.

Lemma cond_map_entries (cond ses : string) :
  Py.lookup cond_map cond = Some ses →
  (cond = "Normal Sleep (NS)" ∧ ses = "ses-1") ∨
  (cond = "Sleep Deprived (SD)" ∧ ses = "ses-2").
Proof.
  intros H%lookup_Some_in. unfold cond_map in H.
  repeat (apply elem_of_cons in H as [[= -> ->]|H]); [by left|by right|].
  by apply elem_of_nil in H.
Qed.

Lemma task_map_entries (task tsk : string) :
  Py.lookup task_map task = Some tsk →
  (task = "Eyes Open" ∧ tsk = "eyesopen") ∨
  (task = "Eyes Closed" ∧ tsk = "eyesclosed").
Proof.
  intros H%lookup_Some_in. unfold task_map in H.
  repeat (apply elem_of_cons in H as [[= -> ->]|H]); [by left|by right|].
  by apply elem_of_nil in H.
Qed.

(** X4: two sessions that resolve to the same file name are the same
    session: same subject, same condition, same task.  No two sessions
    share a cache file or a remote object. *)
Theorem filename_injective (s1 c1 t1 s2 c2 t2 : string) (r1 r2 : Resolved) :
  build_filename s1 c1 t1 = inr r1 →
  build_filename s2 c2 t2 = inr r2 →
  filename r1 = filename r2 →
  s1 = s2 ∧ c1 = c2 ∧ t1 = t2.
Proof.
  unfold build_filename, getitem.
  destruct (Py.lookup cond_map c1) as [ses1|] eqn:Hc1; [|done].
  destruct (Py.lookup task_map t1) as [tsk1|] eqn:Ht1; [|done].
  destruct (Py.lookup cond_map c2) as [ses2|] eqn:Hc2; [|done].
  destruct (Py.lookup task_map t2) as [tsk2|] eqn:Ht2; [|done].
  intros [= <-] [= <-] Hname. simpl in Hname.
  rewrite !string_app_assoc in Hname.
  apply (inj (String.app "sub-")) in Hname.
  apply cond_map_entries in Hc1 as [[-> ->]|[-> ->]];
    apply task_map_entries in Ht1 as [[-> ->]|[-> ->]];
    apply cond_map_entries in Hc2 as [[-> ->]|[-> ->]];
    apply task_map_entries in Ht2 as [[-> ->]|[-> ->]];
    compare_endings Hname; done.
Qed.

Lemma filename_injective_witness :
  build_filename "01" "Normal Sleep (NS)" "Eyes Open"
    = inr {| subj_str := "sub-01"; session_str := "ses-1"; task_str := "eyesopen";
             filename := "sub-01_ses-1_eyesopen.csv";
             file_path := "data/eeg_csv/sub-01_ses-1_eyesopen.csv" |} ∧
  "01" = "01" ∧ "Normal Sleep (NS)" = "Normal Sleep (NS)" ∧ "Eyes Open" = "Eyes Open".
Proof.
  assert (H : build_filename "01" "Normal Sleep (NS)" "Eyes Open"
              = inr {| subj_str := "sub-01"; session_str := "ses-1";
                       task_str := "eyesopen";
                       filename := "sub-01_ses-1_eyesopen.csv";
                       file_path := "data/eeg_csv/sub-01_ses-1_eyesopen.csv" |})
    by reflexivity.
  split; [exact H|].
  exact (filename_injective _ _ _ _ _ _ _ _ H H eq_refl).
Defined.

Lemma rev_app_append (a b acc : string) :
  String.rev_app (a +:+ b) acc = String.rev_app b (String.rev_app a acc).
Proof.
  revert acc. induction a as [|c a IH]; intros acc; [done|].
  change (String c a +:+ b) with (String c (a +:+ b)). simpl. apply IH.
Qed.

Lemma rev_app_acc (b acc : string) :
  String.rev_app b acc = String.rev_app b "" +:+ acc.
Proof.
  revert acc. induction b as [|c b IH]; intros acc; [done|].
  simpl. rewrite (IH (String c acc)), (IH (String c "")).
  by rewrite string_app_assoc.
Qed.

Lemma prefix_append (p x : string) : String.prefix p (p +:+ x) = true.
Proof.
  induction p as [|c p IH]; [by destruct x|].
  change (String c p +:+ x) with (String c (p +:+ x)). simpl.
  by destruct (ascii_dec c c).
Qed.

Lemma endswith_append (a suf : string) : endswith (a +:+ suf) suf = true.
Proof.
  unfold endswith, String.rev.
  rewrite rev_app_append, (rev_app_acc suf (String.rev_app a "")).
  apply prefix_append.
Qed.

(** X5: the name a session resolves to ends in [.csv], so once the file
    is in the data directory the page counts it among the CSV files; and
    when the subject has no underscore and no [sub-] in it, the subject
    the catalogue reads off that name is the session's subject again. *)
Theorem filename_subject_round_trip (subject_id cond task : string) (r : Resolved) :
  build_filename subject_id cond task = inr r →
  contains "_" subject_id = false →
  contains "sub-" subject_id = false →
  endswith (filename r) ".csv" = true ∧ subject_of (filename r) = subject_id.
Proof.
  unfold build_filename.
  destruct (getitem cond_map cond) as [|ses]; [done|].
  destruct (getitem task_map task) as [|tsk]; [done|].
  intros [= <-] Hu Hs. simpl. split.
  - rewrite <- !string_app_assoc. apply endswith_append.
  - rewrite string_app_assoc. by apply subject_of_convention.
Qed.

Lemma filename_subject_round_trip_witness :
  build_filename "01" "Sleep Deprived (SD)" "Eyes Open" = inr Sample.resolved_sd ∧
  contains "_" "01" = false ∧
  contains "sub-" "01" = false ∧
  endswith (filename Sample.resolved_sd) ".csv" = true ∧
  subject_of (filename Sample.resolved_sd) = "01".
Proof.
  assert (H1 : build_filename "01" "Sleep Deprived (SD)" "Eyes Open"
               = inr Sample.resolved_sd) by reflexivity.
  assert (H2 : contains "_" "01" = false) by reflexivity.
  assert (H3 : contains "sub-" "01" = false) by reflexivity.
  split; [exact H1|]. split; [exact H2|]. split; [exact H3|].
  exact (filename_subject_round_trip "01" "Sleep Deprived (SD)" "Eyes Open"
           Sample.resolved_sd H1 H2 H3).
Defined.

(** X6: whatever CSV files are there, when each of the two radio
    buttons is untouched or set to one of its options, the lookups of
    lines 65 and 66 find their keys and the session resolves: the
    [KeyError] of a missing condition or task cannot come from the
    widgets. *)
Theorem selected_session_resolves (u : Selections) (csv_files : list string) :
  (∀ c, sel_cond u = Some c → c ∈ cond_options) →
  (∀ t, sel_task u = Some t → t ∈ task_options) →
  ∃ r, selected_session u csv_files = inr r ∧
       filename r = "sub-" +:+ default (item0 (subject_ids csv_files)) (sel_subj u)
                      +:+ "_" +:+ session_str r +:+ "_" +:+ task_str r +:+ ".csv".
Proof.
  intros Hc Ht. unfold selected_session, build_filename, getitem.
  assert (Hck : default (item0 cond_options) (sel_cond u) ∈ keys cond_map).
  { destruct (sel_cond u) as [c|]; simpl; [by apply Hc|compute_done]. }
  assert (Htk : default (item0 task_options) (sel_task u) ∈ keys task_map).
  { destruct (sel_task u) as [t|]; simpl; [by apply Ht|compute_done]. }
  apply lookup_key_is_Some in Hck as [ses ->].
  apply lookup_key_is_Some in Htk as [tsk ->].
  eexists. split; [done|]. simpl. by rewrite string_app_assoc.
Qed.

Lemma selected_session_resolves_witness :
  (∀ c, sel_cond Sample.sleep_deprived = Some c → c ∈ cond_options) ∧
  (∀ t, sel_task Sample.sleep_deprived = Some t → t ∈ task_options) ∧
  ∃ r, selected_session Sample.sleep_deprived ["sub-01_ses-1_eyesopen.csv"] = inr r ∧
       filename r = "sub-" +:+ default (item0 (subject_ids ["sub-01_ses-1_eyesopen.csv"]))
                                 (sel_subj Sample.sleep_deprived)
                      +:+ "_" +:+ session_str r +:+ "_" +:+ task_str r +:+ ".csv".
Proof.
  assert (H1 : ∀ c, sel_cond Sample.sleep_deprived = Some c → c ∈ cond_options).
  { intros c [= <-]. compute_done. }
  assert (H2 : ∀ t, sel_task Sample.sleep_deprived = Some t → t ∈ task_options).
  { intros t [= <-]. compute_done. }
  split; [exact H1|]. split; [exact H2|].
  exact (selected_session_resolves Sample.sleep_deprived _ H1 H2).
Defined.

(** *** Whole runs of the page *)

Section PageRuns.
Context {cell : Type}.
Variable parse_csv : string → result (dict (list cell)).
Variable hub : string → string → result string.
Variable functional_color : string → option color.
Variable ellipse_covers : Z * Z * Z * Z → Z → Z → bool.
Variable image_open : string → result Image.

Implicit Types (w : @World cell) (u : Selections) (r : Resolved) (df : @DataFrame cell).

Lemma shown_shown w (es es' : list Element) :
  shown (shown w es) es' = shown w (es ++ es').
Proof. unfold shown. simpl. by rewrite app_assoc. Qed.

Lemma shown_nil w : shown w [] = w.
Proof. unfold shown. rewrite app_nil_r. by destruct w. Qed.

(** With CSV files on disk and a session that resolves, a run is the
    header, the three pickers, [fetch] and what follows it. *)
Lemma page_after_pickers u w r :
  csv_files_of w ≠ [] →
  selected_session u (csv_files_of w) = inr r →
  page parse_csv hub functional_color ellipse_covers image_open u w =
    bind (fetch parse_csv hub r)
         (after_fetch functional_color ellipse_covers image_open u r)
         (shown w (header ++ pickers (csv_files_of w))).
Proof.
  unfold csv_files_of, selected_session. intros Hsome Hr.
  assert (Hdir : isdir (fs w) DATA_DIR = true).
  { apply listdir_nonempty_isdir. intros Hnil. by rewrite Hnil in Hsome. }
  unfold page. unfold bind at 1 2 3. unfold emit, os_listdir. simpl.
  rewrite Hdir.
  destruct (filter _ (listdir (fs w) DATA_DIR)) as [|f fs'] eqn:Hcsv; [done|].
  unfold bind at 1 2 3 4. unfold selectbox, radio.
  unfold bind at 1 2 3 4 5 6. unfold emit, ret. simpl in *.
  rewrite Hr. simpl. rewrite !shown_shown. simpl.
  reflexivity.
Qed.

(** Steps that only add to the trace. *)
Lemma bind_trace_only {A B} (m : @M cell A) (k : A → @M cell B) :
  (∀ w, ∃ es, snd (m w) = shown w es) →
  (∀ a w, ∃ es, snd (k a w) = shown w es) →
  ∀ w, ∃ es, snd (bind m k w) = shown w es.
Proof.
  intros Hm Hk w. unfold bind. destruct (Hm w) as [es Hes].
  destruct (m w) as [[a| |e] w1]; simpl in Hes; subst w1; [|by exists es..].
  destruct (Hk a (shown w es)) as [es' Hes']. exists (es ++ es').
  by rewrite Hes', shown_shown.
Qed.

Lemma emit_trace_only (e : @Element cell) w : ∃ es, snd (emit e w) = shown w es.
Proof. by exists [e]. Qed.

Lemma lift_trace_only {A} (res : result A) w :
  ∃ es : list (@Element cell), snd (lift res w) = shown w es.
Proof. exists []. rewrite shown_nil. by destruct res. Qed.

Lemma for_each_trace_only {A} (xs : list A) (body : A → @M cell unit) :
  (∀ a w, ∃ es, snd (body a w) = shown w es) →
  ∀ w, ∃ es, snd (for_each xs body w) = shown w es.
Proof.
  intros Hbody. induction xs as [|a xs IH]; intros w; simpl.
  - exists []. by rewrite shown_nil.
  - apply bind_trace_only; [apply Hbody|]. intros _. apply IH.
Qed.

Lemma multiselect_trace_only label (options dflt : list string) choice w :
  ∃ es : list (@Element cell),
    snd (multiselect label options dflt choice w) = shown w es.
Proof. by eexists [_]. Qed.

Lemma describe_channels_trace_only sel w :
  ∃ es : list (@Element cell), snd (describe_channels sel w) = shown w es.
Proof.
  unfold describe_channels.
  apply bind_trace_only; [apply emit_trace_only|]. intros _ w'.
  destruct sel; [apply emit_trace_only|].
  apply for_each_trace_only. intros. apply emit_trace_only.
Qed.

Lemma render_trace_only df r sel w :
  ∃ es, snd (render df r sel w) = shown w es.
Proof.
  unfold render. destruct sel; [apply emit_trace_only|].
  apply bind_trace_only; [apply lift_trace_only|]. intros. apply emit_trace_only.
Qed.

(** Once the table is loaded the run touches neither the disk nor the
    store: whatever happens, it only adds to the trace. *)
Lemma after_fetch_trace_only u r df w :
  ∃ es, snd (after_fetch functional_color ellipse_covers image_open u r df w)
        = shown w es.
Proof.
  unfold after_fetch.
  apply bind_trace_only; [apply multiselect_trace_only|]. intros sel.
  apply bind_trace_only; [apply describe_channels_trace_only|]. intros _.
  apply bind_trace_only; [apply render_trace_only|]. intros _.
  apply bind_trace_only; [apply emit_trace_only|]. intros _.
  apply bind_trace_only; [apply multiselect_trace_only|]. intros elecs.
  apply bind_trace_only; [apply lift_trace_only|]. intros img.
  apply bind_trace_only; [apply lift_trace_only|]. intros combined.
  apply emit_trace_only.
Qed.

Lemma for_each_emit {A} (f : A → @Element cell) (xs : list A) w :
  for_each xs (λ a, emit (f a)) w = (Done (), shown w (f <$> xs)).
Proof.
  revert w. induction xs as [|a xs IH]; intros w; simpl.
  - unfold ret. by rewrite shown_nil.
  - unfold bind, emit. rewrite IH. by rewrite shown_shown.
Qed.

Lemma add_traces_map df (ts : list cell) sel fig :
  Forall (λ ch, ch ∈ eeg_channels df) sel →
  Py.lookup df time_col = Some ts →
  add_traces df sel fig =
    inr {| data := data fig ++
                   ((λ ch, {| x := ts; y := default [] (Py.lookup df ch);
                              mode := "lines"; name := ch |}) <$> sel);
           layout := layout fig |}.
Proof.
  intros Hsel Ht. revert fig.
  induction Hsel as [|ch sel Hch _ IH]; intros fig; simpl.
  - rewrite app_nil_r. by destruct fig.
  - unfold getitem. rewrite Ht.
    destruct (eeg_channels_column df ch Hch) as [ys Hys]. rewrite Hys.
    rewrite IH. simpl. by rewrite <- app_assoc.
Qed.

Lemma fetch_reads_local_bytes r w bytes :
  files (fs w) !! file_path r = Some bytes →
  fetch parse_csv hub r w =
    (match parse_csv bytes with
     | inl e => Raised e
     | inr df => Done df
     end, w).
Proof.
  intros Hfile. rewrite fetch_local.
  - unfold pd_read_csv, read_file. rewrite Hfile. by destruct (parse_csv bytes).
  - unfold path_exists. rewrite bool_decide_eq_true_2; [done|]. rewrite Hfile. eauto.
Qed.

(** X8: a file at the local path is trusted as it is.  [fetch] returns
    what the reader makes of its bytes, or raises the reader's error;
    the store is not asked, nothing is shown and the world is left as
    it was, whatever the store holds for that name. *)
Theorem fetch_reads_local_file r w bytes :
  files (fs w) !! file_path r = Some bytes →
  fetch parse_csv hub r w =
    (match parse_csv bytes with
     | inl e => Raised e
     | inr df => Done df
     end, w).
Proof.
  intros Hfile.
  assert (Hthere : path_exists (fs w) (file_path r) = true).
  { unfold path_exists. rewrite bool_decide_eq_true_2; [done|]. rewrite Hfile. eauto. }
  rewrite (fetch_local parse_csv hub r w Hthere).
  unfold pd_read_csv, read_file. rewrite Hfile. by destruct (parse_csv bytes).
Qed.

(** X9: a run of the page calls the store client at most once, and
    then for the file of the resolved session and only when nothing is
    at its local path; every other run makes no call.  (One call is
    what the page decides; how often the client then goes over the
    network is the client's business.) *)
Theorem page_calls_client_at_most_once u w :
  requests (snd (page parse_csv hub functional_color ellipse_covers image_open u w))
    = requests w ∨
  (∃ r,
     csv_files_of w ≠ [] ∧
     selected_session u (csv_files_of w) = inr r ∧
     path_exists (fs w) (file_path r) = false ∧
     requests (snd (page parse_csv hub functional_color ellipse_covers image_open u w))
       = requests w ++ [(HF_REPO, filename r)]).
Proof.
  destruct (decide (csv_files_of w = [])) as [Hnone|Hsome].
  { left. unfold csv_files_of in Hnone.
    unfold page. unfold bind at 1 2 3. unfold emit, os_listdir. simpl.
    destruct (isdir (fs w) DATA_DIR).
    - rewrite Hnone. by unfold bind, emit, stop.
    - by destruct (bool_decide _). }
  destruct (selected_session u (csv_files_of w)) as [e|r] eqn:Hr.
  { left. unfold csv_files_of, selected_session in *.
    assert (Hdir : isdir (fs w) DATA_DIR = true).
    { apply listdir_nonempty_isdir. intros Hnil. by rewrite Hnil in Hsome. }
    unfold page. unfold bind at 1 2 3. unfold emit, os_listdir. simpl.
    rewrite Hdir.
    destruct (filter _ (listdir (fs w) DATA_DIR)) as [|f fs'] eqn:Hcsv; [done|].
    unfold bind at 1 2 3 4. unfold selectbox, radio.
    unfold bind at 1 2 3 4 5 6. unfold emit, ret. simpl in *.
    by rewrite Hr. }
  rewrite (page_after_pickers u w r Hsome Hr).
  set (w0 := shown w (header ++ pickers (csv_files_of w))).
  unfold bind.
  destruct (path_exists (fs w) (file_path r)) eqn:He.
  - left. rewrite fetch_local by done.
    pose proof (pd_read_csv_world parse_csv (file_path r) w0) as Hw.
    destruct (pd_read_csv parse_csv (file_path r) w0) as [[df| |e] w1];
      simpl in Hw; subst w1; [|done..].
    by destruct (after_fetch_trace_only u r df w0) as [es ->].
  - right. exists r. split_and!; [done..|].
    destruct (hub HF_REPO (filename r)) as [e|bytes] eqn:Hh.
    + by rewrite (fetch_remote_fail parse_csv hub r w0 e).
    + rewrite (fetch_remote_ok parse_csv hub r w0 bytes) by done.
      match goal with |- context [pd_read_csv _ ?p ?w2] =>
        pose proof (pd_read_csv_world parse_csv p w2) as Hw;
        destruct (pd_read_csv parse_csv p w2) as [[df| |e] w1];
        simpl in Hw; subst w1 end; [|done..].
      match goal with |- context [after_fetch _ _ _ u r df ?w2] =>
        by destruct (after_fetch_trace_only u r df w2) as [es ->] end.
Qed.


Lemma render_chart df r (ts : list cell) sel w :
  Forall (λ ch, ch ∈ eeg_channels df) sel →
  Py.lookup df time_col = Some ts →
  render df r sel w = (Done (), shown w [chart_or_notice df r ts sel]).
Proof.
  intros Hsel Ht. destruct sel as [|ch sel]; [done|].
  unfold render, build_figure, bind, lift.
  by rewrite (add_traces_map df ts (ch :: sel) _ Hsel Ht).
Qed.

Lemma describe_channels_notes sel w :
  describe_channels sel w =
    (Done (),
     shown w (Expander "ℹ️ What do the EEG channels mean?" ::
              match sel with
              | [] => [Markdown "Select a channel above to see its meaning."]
              | _ => (λ ch, Markdown ("**" +:+ ch +:+ "**: " +:+ describe ch)) <$> sel
              end)).
Proof.
  unfold describe_channels, bind, emit. destruct sel as [|ch sel].
  - by rewrite shown_shown.
  - rewrite (for_each_emit (λ ch, Markdown ("**" +:+ ch +:+ "**: " +:+ describe ch))).
    by rewrite shown_shown.
Qed.

(** What the electrode section leaves on the page: the picture when
    [annotate] returns one, nothing when it raises. *)
Lemma after_fetch_run u r df (ts : list cell) (img : Image) w :
  Forall (λ ch, ch ∈ eeg_channels df) (chosen_channels u df) →
  Py.lookup df time_col = Some ts →
  image_open "/Users/brandonfox/Downloads/Brain_image.png" = inr img →
  after_fetch functional_color ellipse_covers image_open u r df w =
    (match annotate functional_color ellipse_covers img (default [] (sel_electrodes u)) with
     | inl e => Raised e
     | inr _ => Done ()
     end,
     shown w (channel_notes df (chosen_channels u df)
                ++ [chart_or_notice df r ts (chosen_channels u df)]
                ++ electrode_section
                ++ match annotate functional_color ellipse_covers img
                           (default [] (sel_electrodes u)) with
                   | inl _ => []
                   | inr combined => [Picture combined "EEG Electrode Highlight"]
                   end)).
Proof.
  intros Hsel Ht Himg. unfold after_fetch, chosen_channels in *.
  unfold bind at 1. unfold multiselect at 1. unfold bind at 1. unfold emit at 1.
  unfold ret at 1. unfold bind at 1. rewrite describe_channels_notes.
  unfold bind at 1. rewrite (render_chart df r ts _ _ Hsel Ht).
  unfold bind, multiselect, emit, ret, lift. simpl. rewrite Himg. simpl.
  unfold channel_notes, electrode_section.
  destruct (annotate _ _ img _); simpl; rewrite !shown_shown;
    unfold raise, ret; repeat f_equal; by rewrite <- ?app_assoc.
Qed.

(** X11: a run on a cached file.  With CSV files on disk, a session
    that resolves to a file at its local path, a table with a Time
    column, a channel selection among the table's channels and a base
    image that opens, the page sends no request and leaves the disk as
    it is.  Its trace is the header, the three pickers, the channel
    picker with one description line per selected channel, the chart
    (or the empty-selection notice), the electrode picker and, when
    [annotate] returns an image, the picture; when [annotate] raises,
    the run ends with that exception and no picture. *)
Theorem page_cached_run u w r bytes df (ts : list cell) (img : Image) :
  csv_files_of w ≠ [] →
  selected_session u (csv_files_of w) = inr r →
  files (fs w) !! file_path r = Some bytes →
  parse_csv bytes = inr df →
  Py.lookup df time_col = Some ts →
  Forall (λ ch, ch ∈ eeg_channels df) (chosen_channels u df) →
  image_open "/Users/brandonfox/Downloads/Brain_image.png" = inr img →
  page parse_csv hub functional_color ellipse_covers image_open u w =
    (match annotate functional_color ellipse_covers img (default [] (sel_electrodes u)) with
     | inl e => Raised e
     | inr _ => Done ()
     end,
     shown w (header ++ pickers (csv_files_of w)
                ++ channel_notes df (chosen_channels u df)
                ++ [chart_or_notice df r ts (chosen_channels u df)]
                ++ electrode_section
                ++ match annotate functional_color ellipse_covers img
                           (default [] (sel_electrodes u)) with
                   | inl _ => []
                   | inr combined => [Picture combined "EEG Electrode Highlight"]
                   end)).
Proof.
  intros Hsome Hr Hfile Hparse Ht Hsel Himg.
  rewrite (page_after_pickers u w r Hsome Hr). unfold bind.
  rewrite (fetch_reads_local_bytes r _ bytes) by done.
  rewrite Hparse.
  rewrite (after_fetch_run u r df ts img _ Hsel Ht Himg).
  rewrite shown_shown. by rewrite <- !app_assoc.
Qed.

End PageRuns.

(** *** More on the chart and the overlay *)

Section RenderEdges.
Context {cell : Type}.
Implicit Types (df : @DataFrame cell) (w : @World cell) (r : Resolved) (u : Selections).

(** X12: a table without a Time column cannot be plotted: for any
    non-empty selection the first trace already fails on [df["Time"]],
    the run ends with [KeyError] for Time and no chart is shown. *)
Theorem render_without_time_column df r (sel : list string) w :
  Py.lookup df time_col = None →
  sel ≠ [] →
  render df r sel w = (Raised (KeyError "Time"), w).
Proof.
  intros Ht Hne. destruct sel as [|ch sel]; [done|].
  unfold render, build_figure, bind, lift. simpl.
  unfold getitem. by rewrite Ht.
Qed.

Lemma add_traces_missing df (ts : list cell) good bad rest fig :
  Py.lookup df time_col = Some ts →
  Forall (λ ch, ch ∈ eeg_channels df) good →
  Py.lookup df bad = None →
  add_traces df (good ++ bad :: rest) fig = inl (KeyError bad).
Proof.
  intros Ht Hgood Hbad. revert fig.
  induction Hgood as [|ch good Hch _ IH]; intros fig; simpl; unfold getitem; rewrite Ht.
  - by rewrite Hbad.
  - destruct (eeg_channels_column df ch Hch) as [ys ->]. apply IH.
Qed.

(** X13: the chart is all or nothing.  When the selection names a label
    that is not a column of the table, the run ends with [KeyError] for
    the first such label and nothing is shown, not even the traces of
    the channels selected before it. *)
Theorem render_unknown_channel df r (ts : list cell) (good rest : list string)
    (bad : string) w :
  Py.lookup df time_col = Some ts →
  Forall (λ ch, ch ∈ eeg_channels df) good →
  Py.lookup df bad = None →
  render df r (good ++ bad :: rest) w = (Raised (KeyError bad), w).
Proof.
  intros Ht Hgood Hbad.
  pose proof (add_traces_missing df ts good bad rest
                {| data := []; layout := None |} Ht Hgood Hbad) as Hadd.
  unfold render, build_figure, bind, lift.
  destruct (good ++ bad :: rest) as [|ch sel] eqn:Hsel.
  - by destruct good.
  - by rewrite Hadd.
Qed.

(** X14: the channel picker offers every column but Time, in file
    order, and an untouched picker selects the first five of them (all
    of them when there are fewer).  With a Time column in the table
    that default selection always plots: one trace per default channel,
    or the empty-selection notice when Time is the only column. *)
Theorem default_selection_renders u df r (ts : list cell) w :
  sel_channels u = None →
  Py.lookup df time_col = Some ts →
  length (chosen_channels u df) = min 5 (length (eeg_channels df)) ∧
  chosen_channels u df `prefix_of` eeg_channels df ∧
  (∀ ch, ch ∈ eeg_channels df ↔ ch ∈ keys df ∧ ch ≠ "Time") ∧
  render df r (chosen_channels u df) w =
    (Done (), shown w [chart_or_notice df r ts (chosen_channels u df)]).
Proof.
  intros Hu Ht. unfold chosen_channels. rewrite Hu. simpl.
  split_and!.
  - by rewrite length_take.
  - apply prefix_take.
  - intros ch. unfold eeg_channels. rewrite list_elem_of_filter. tauto.
  - apply render_chart; [|done].
    apply Forall_forall. intros ch Hch.
    apply elem_of_take in Hch as (i & Hi & _).
    by eapply list_elem_of_lookup_2.
Qed.

(** X15: the expander holds one line per selected channel, in the order
    selected: the label in bold, then its description from the
    catalogue or the fallback text; with nothing selected it holds the
    hint to select a channel. *)
Theorem describe_channels_lines (sel : list string) w :
  describe_channels sel w =
    (Done (),
     shown w (Expander "ℹ️ What do the EEG channels mean?" ::
              match sel with
              | [] => [Markdown "Select a channel above to see its meaning."]
              | _ => (λ ch, Markdown ("**" +:+ ch +:+ "**: " +:+ describe ch)) <$> sel
              end)).
Proof.
  unfold describe_channels, bind. unfold emit at 1.
  destruct sel as [|ch sel].
  - unfold emit. by rewrite shown_shown.
  - rewrite (for_each_emit (λ ch, Markdown ("**" +:+ ch +:+ "**: " +:+ describe ch))).
    by rewrite shown_shown.
Qed.

End RenderEdges.

Section OverlayEdges.
Variable functional_color : string → option color.
Variable ellipse_covers : Z * Z * Z * Z → Z → Z → bool.

Lemma annotate_offered_first (brain_img : Image) (elec : string) (rest : list string) :
  elec ∈ electrode_options →
  ∃ c, Py.lookup electrode_colors elec = Some c ∧
       annotate functional_color ellipse_covers brain_img (elec :: rest)
         = inl (ValueError ("unknown color specifier: '" +:+ c +:+ "80'")).
Proof.
  unfold electrode_options. intros Helec.
  repeat (apply elem_of_cons in Helec as [->|Helec]);
    try (by apply elem_of_nil in Helec);
    eexists; (split; [reflexivity|]); reflexivity.
Qed.

Lemma annotate_unknown_first (brain_img : Image) (elec : string) (rest : list string) :
  elec ∉ electrode_options →
  annotate functional_color ellipse_covers brain_img (elec :: rest) = inl (KeyError elec).
Proof.
  intros Helec. unfold annotate. simpl. unfold getitem.
  by rewrite (lookup_None_not_key electrode_coords elec Helec).
Qed.

(** X16: the first selected electrode decides the outcome of
    [annotate].  A label that is not offered raises [KeyError] for that
    label before anything is drawn; an offered one raises the
    [ValueError] of its colour text; so [annotate] returns an image for
    the empty selection and for no other. *)
Theorem annotate_outcome (brain_img : Image) (sel : list string) :
  (sel = [] ∧
   ∃ combined, annotate functional_color ellipse_covers brain_img sel = inr combined) ∨
  (∃ elec rest, sel = elec :: rest ∧ (elec ∉ electrode_options) ∧
     annotate functional_color ellipse_covers brain_img sel = inl (KeyError elec)) ∨
  (∃ elec rest c, sel = elec :: rest ∧ Py.lookup electrode_colors elec = Some c ∧
     annotate functional_color ellipse_covers brain_img sel
       = inl (ValueError ("unknown color specifier: '" +:+ c +:+ "80'"))).
Proof.
  destruct sel as [|elec rest].
  - left. split; [done|]. unfold annotate, alpha_composite. simpl.
    case_decide; [eauto|done].
  - right. destruct (decide (elec ∈ electrode_options)) as [Hin|Hout].
    + right. destruct (annotate_offered_first brain_img elec rest Hin) as (c & ? & ?).
      by exists elec, rest, c.
    + left. exists elec, rest. split_and!; [done..|].
      by apply annotate_unknown_first.
Qed.

End OverlayEdges.

Section PageOverlay.
Context {cell : Type}.
Variable parse_csv : string → result (dict (list cell)).
Variable hub : string → string → result string.
Variable functional_color : string → option color.
Variable ellipse_covers : Z * Z * Z * Z → Z → Z → bool.
Variable image_open : string → result Image.

Implicit Types (w : @World cell) (u : Selections) (r : Resolved) (df : @DataFrame cell).

(** X17: highlighting an electrode ends the run.  On a cached file with
    a plottable table, as soon as the user has selected an offered
    electrode the page still shows the chart and the electrode picker,
    then ends with [ValueError]; no picture is shown. *)
Theorem page_selected_electrode_raises u w r bytes df (ts : list cell) (img : Image)
    (elec : string) (rest : list string) :
  csv_files_of w ≠ [] →
  selected_session u (csv_files_of w) = inr r →
  files (fs w) !! file_path r = Some bytes →
  parse_csv bytes = inr df →
  Py.lookup df time_col = Some ts →
  Forall (λ ch, ch ∈ eeg_channels df) (chosen_channels u df) →
  image_open "/Users/brandonfox/Downloads/Brain_image.png" = inr img →
  sel_electrodes u = Some (elec :: rest) →
  elec ∈ electrode_options →
  ∃ c, Py.lookup electrode_colors elec = Some c ∧
    page parse_csv hub functional_color ellipse_covers image_open u w =
      (Raised (ValueError ("unknown color specifier: '" +:+ c +:+ "80'")),
       shown w (header ++ pickers (csv_files_of w)
                  ++ channel_notes df (chosen_channels u df)
                  ++ [chart_or_notice df r ts (chosen_channels u df)]
                  ++ electrode_section)).
Proof.
  intros Hsome Hr Hfile Hparse Ht Hsel Himg Hu Helec.
  destruct (annotate_offered_first functional_color ellipse_covers img elec rest Helec)
    as (c & Hc & Hraise).
  exists c. split; [done|].
  rewrite (page_after_pickers parse_csv hub functional_color ellipse_covers image_open
             u w r Hsome Hr).
  unfold bind.
  rewrite (fetch_reads_local_bytes parse_csv hub r _ bytes) by done.
  rewrite Hparse.
  rewrite (after_fetch_run functional_color ellipse_covers image_open
             u r df ts img _ Hsel Ht Himg).
  rewrite Hu. simpl. rewrite Hraise.
  rewrite shown_shown. by rewrite ?app_nil_r, <- ?app_assoc.
Qed.

End PageOverlay.

(** *** Listed subjects and downloaded files *)

Lemma contains_char_cons (sep c : ascii) (s : string) :
  contains (String sep "") (String c s) = false ↔
  sep ≠ c ∧ contains (String sep "") s = false.
Proof.
  simpl. destruct (ascii_dec sep c) as [->|Hne].
  - destruct s; simpl; split; (done || by intros [? _]).
  - simpl. split; [done|by intros [_ ?]].
Qed.

Lemma token_no_sep (sep : ascii) (f : string) :
  contains (String sep "") (item0 (split sep f)) = false.
Proof.
  induction f as [|c f IH]; [done|]. simpl.
  case_decide as Hc; [done|].
  destruct (split sep f) as [|h t] eqn:Hsplit; [by apply split_nonempty in Hsplit|].
  simpl in *. apply contains_char_cons. split; [congruence|done].
Qed.

Lemma replace_go_no_char (sep : ascii) (old : string) (k : nat) (s : string) :
  contains (String sep "") s = false →
  contains (String sep "") (replace_go old "" k s) = false.
Proof.
  revert k. induction s as [|c s IH]; intros k Hs; [done|].
  apply contains_char_cons in Hs as [Hne Hs].
  destruct k as [|k]; cbn [replace_go]; [|by apply IH].
  destruct (String.prefix old (String c s)).
  - change ("" +:+ ?t) with t. by apply IH.
  - apply contains_char_cons. split; [done|]. by apply IH.
Qed.

(** X18: no listed subject has an underscore in it, whatever the file
    names are; so in the file name built for a listed subject the text
    before the first underscore is [sub-] followed by that subject. *)
Theorem listed_subject_no_underscore (csv_files : list string) (s cond task : string)
    (r : Resolved) :
  s ∈ subject_ids csv_files →
  build_filename s cond task = inr r →
  contains "_" s = false ∧
  item0 (split "_"%char (filename r)) = "sub-" +:+ s.
Proof.
  intros (f & _ & ->)%subject_ids_elem Hr.
  assert (Hs : contains "_" (subject_of f) = false).
  { unfold subject_of, replace. apply replace_go_no_char, token_no_sep. }
  split; [done|].
  revert Hr. unfold build_filename.
  destruct (getitem cond_map cond) as [|ses]; [done|].
  destruct (getitem task_map task) as [|tsk]; [done|].
  intros [= <-]. cbn [filename].
  change ("_" +:+ ses +:+ "_" +:+ tsk +:+ ".csv")
    with (String "_" (ses +:+ "_" +:+ tsk +:+ ".csv")).
  apply split_before_sep.
  change (contains "_" ("sub-" +:+ subject_of f)) with (contains "_" (subject_of f)).
  done.
Qed.

Lemma substring_skip (p x : string) (n : nat) :
  String.substring (String.length p) n (p +:+ x) = String.substring 0 n x.
Proof.
  induction p as [|c p IH]; [done|].
  change (String c p +:+ x) with (String c (p +:+ x)). simpl. apply IH.
Qed.

Lemma substring_all (x : string) : String.substring 0 (String.length x) x = x.
Proof. induction x as [|c x IH]; [done|]. simpl. by rewrite IH. Qed.

Lemma strip_prefix_append (p x : string) : strip_prefix p (p +:+ x) = Some x.
Proof.
  unfold strip_prefix. rewrite prefix_append, string_app_length.
  replace (String.length p + String.length x - String.length p)
    with (String.length x) by lia.
  by rewrite substring_skip, substring_all.
Qed.

Lemma split_no_sep (sep : ascii) (s : string) :
  contains (String sep "") s = false → split sep s = [s].
Proof.
  induction s as [|c s IH]; [done|].
  intros [Hne Hs]%contains_char_cons. simpl.
  rewrite decide_False by congruence. by rewrite IH.
Qed.

Lemma contains_char_app (sep : ascii) (a b : string) :
  contains (String sep "") a = false →
  contains (String sep "") b = false →
  contains (String sep "") (a +:+ b) = false.
Proof.
  intros Ha Hb. induction a as [|c a IH]; [done|].
  apply contains_char_cons in Ha as [Hne Ha].
  change (String c a +:+ b) with (String c (a +:+ b)).
  apply contains_char_cons. split; [done|]. by apply IH.
Qed.

(** A file directly under a directory is among the directory's
    entries. *)
Lemma listdir_file (d : Disk) (dir name bytes : string) :
  files d !! (dir +:+ "/" +:+ name) = Some bytes →
  contains "/" name = false →
  name ∈ listdir d dir.
Proof.
  intros Hfile Hname. unfold listdir.
  apply elem_of_remove_dups, list_elem_of_omap.
  exists (dir +:+ "/" +:+ name). split.
  - unfold paths. apply elem_of_app. left.
    apply elem_of_elements, elem_of_dom. eauto.
  - rewrite <- string_app_assoc, strip_prefix_append. simpl.
    by rewrite split_no_sep.
Qed.

Lemma build_filename_no_slash (subject_id cond task : string) (r : Resolved) :
  build_filename subject_id cond task = inr r →
  contains "/" subject_id = false →
  file_path r = DATA_DIR +:+ "/" +:+ filename r ∧ contains "/" (filename r) = false.
Proof.
  unfold build_filename, getitem.
  destruct (Py.lookup cond_map cond) as [ses|] eqn:Hc; [|done].
  destruct (Py.lookup task_map task) as [tsk|] eqn:Ht; [|done].
  intros [= <-] Hs. cbn [file_path filename]. split.
  - by rewrite !string_app_assoc.
  - apply cond_map_entries in Hc as [[-> ->]|[-> ->]];
      apply task_map_entries in Ht as [[-> ->]|[-> ->]];
      by repeat apply contains_char_app.
Qed.

Section CachePopulation.
Context {cell : Type}.
Variable parse_csv : string → result (dict (list cell)).
Variable hub : string → string → result string.

Implicit Types (w : @World cell) (r : Resolved) (df : @DataFrame cell).

(** X19: a download fills the catalogue.  When [fetch] has downloaded
    the file of a session (nothing was at its local path) and returned
    its table, the file is among the CSV files the next run finds in
    the data directory; and when the subject has no slash, no
    underscore and no [sub-] in it, the subject is in the next run's
    subject list. *)
Theorem downloaded_file_is_listed (subject_id cond task : string) r w df w1 :
  build_filename subject_id cond task = inr r →
  contains "/" subject_id = false →
  contains "_" subject_id = false →
  contains "sub-" subject_id = false →
  path_exists (fs w) (file_path r) = false →
  fetch parse_csv hub r w = (Done df, w1) →
  filename r ∈ csv_files_of w1 ∧ subject_id ∈ subject_ids (csv_files_of w1).
Proof.
  intros Hr Hslash Hu Hs He Hf.
  destruct (build_filename_no_slash _ _ _ _ Hr Hslash) as [Hpath Hname].
  pose proof (build_filename_path _ _ _ _ Hr) as Hp.
  assert (Hlisted : filename r ∈ csv_files_of w1).
  { destruct (hub HF_REPO (filename r)) as [e|bytes] eqn:Hh.
    { by rewrite (fetch_remote_fail parse_csv hub r w e) in Hf. }
    rewrite (fetch_remote_ok parse_csv hub r w bytes) in Hf by done.
    match type of Hf with pd_read_csv _ _ ?w2 = _ =>
      pose proof (pd_read_csv_world parse_csv (path_join DATA_DIR (filename r)) w2) as Hw
    end.
    rewrite Hf in Hw. simpl in Hw. subst w1.
    unfold csv_files_of. simpl. apply list_elem_of_filter. split.
    - revert Hr. unfold build_filename.
      destruct (getitem cond_map cond) as [|ses]; [done|].
      destruct (getitem task_map task) as [|tsk]; [done|].
      intros [= <-]. cbn [filename].
      rewrite <- !string_app_assoc. apply endswith_append.
    - apply (listdir_file _ _ _ bytes); [|done].
      rewrite <- Hp, Hpath. simpl. by rewrite <- Hpath, lookup_insert_eq. }
  split; [done|].
  apply subject_ids_elem. exists (filename r). split; [done|].
  revert Hr. unfold build_filename.
  destruct (getitem cond_map cond) as [|ses]; [done|].
  destruct (getitem task_map task) as [|tsk]; [done|].
  intros [= <-]. cbn [filename].
  rewrite string_app_assoc. symmetry. by apply subject_of_convention.
Qed.

End CachePopulation.

Section PageImage.
Context {cell : Type}.
Variable parse_csv : string → result (dict (list cell)).
Variable hub : string → string → result string.
Variable functional_color : string → option color.
Variable ellipse_covers : Z * Z * Z * Z → Z → Z → bool.
Variable image_open : string → result Image.

Implicit Types (w : @World cell) (u : Selections) (r : Resolved) (df : @DataFrame cell).

(** X20: the picture is read from one fixed absolute path.  When it
    cannot be opened there, a run on a cached file with a plottable
    table still shows the chart and the electrode picker, then ends
    with the exception of [Image.open], whatever electrodes are
    selected. *)
Theorem page_image_missing u w r bytes df (ts : list cell) (e : Exception) :
  csv_files_of w ≠ [] →
  selected_session u (csv_files_of w) = inr r →
  files (fs w) !! file_path r = Some bytes →
  parse_csv bytes = inr df →
  Py.lookup df time_col = Some ts →
  Forall (λ ch, ch ∈ eeg_channels df) (chosen_channels u df) →
  image_open "/Users/brandonfox/Downloads/Brain_image.png" = inl e →
  page parse_csv hub functional_color ellipse_covers image_open u w =
    (Raised e,
     shown w (header ++ pickers (csv_files_of w)
                ++ channel_notes df (chosen_channels u df)
                ++ [chart_or_notice df r ts (chosen_channels u df)]
                ++ electrode_section)).
Proof.
  intros Hsome Hr Hfile Hparse Ht Hsel Himg.
  rewrite (page_after_pickers parse_csv hub functional_color ellipse_covers image_open
             u w r Hsome Hr).
  unfold bind at 1.
  rewrite (fetch_reads_local_bytes parse_csv hub r _ bytes) by done.
  rewrite Hparse.
  unfold after_fetch, chosen_channels in *.
  unfold bind at 1. unfold multiselect at 1. unfold bind at 1. unfold emit at 1.
  unfold ret at 1. unfold bind at 1. rewrite describe_channels_notes.
  unfold bind at 1. rewrite (render_chart df r ts _ _ Hsel Ht).
  unfold bind, multiselect, emit, ret, lift. simpl. rewrite Himg. simpl.
  unfold raise, channel_notes, electrode_section, pickers.
  rewrite !shown_shown. simpl. reflexivity.
Qed.

End PageImage.

(** *** Landing page helpers *)

(** X21: for an absolute path the three places [page_exists] looks in
    are one and the same, since joining a directory with an absolute
    path gives the path back: the page exists exactly when the path
    itself does, and [pages] is not consulted. *)
Theorem page_exists_absolute (d : Disk) (path : string) :
  startswith path "/" = true →
  Home.page_exists d path = path_exists d path.
Proof.
  intros Habs. unfold Home.page_exists, path_join. rewrite Habs. simpl.
  destruct (path_exists d path); reflexivity.
Qed.

(** X22: [link_or_hint] links to the page path as given even when the
    file was found under [pages]: with [st.page_link] there and a
    relative path whose file is under [pages], the link's target is the
    bare path; without [st.page_link] the hint to use the sidebar is
    shown, whatever is on disk. *)
Theorem link_or_hint_target (d : Disk) (label page_path icon : string) :
  (startswith page_path "/" = false →
   path_exists d ("pages/" +:+ page_path) = true →
   Home.link_or_hint true d label page_path icon
     = Home.PageLink page_path (icon +:+ " " +:+ label)) ∧
  Home.link_or_hint false d label page_path icon
    = Home.Caption (icon +:+ " Open via the **sidebar**: " +:+ label).
Proof.
  split; [|done].
  intros Hrel Hthere. unfold Home.link_or_hint, Home.page_exists, path_join.
  rewrite Hrel. simpl.
  change ("pages" +:+ "/" +:+ page_path) with ("pages/" +:+ page_path).
  rewrite Hthere. by rewrite orb_true_r.
Qed.

(** *** The further statements at concrete inputs *)

Lemma listed_subject_no_underscore_witness :
  "01" ∈ subject_ids ["sub-01_ses-1_eyesopen.csv"] ∧
  build_filename "01" "Sleep Deprived (SD)" "Eyes Open" = inr Sample.resolved_sd ∧
  contains "_" "01" = false ∧
  item0 (split "_"%char (filename Sample.resolved_sd)) = "sub-" +:+ "01".
Proof.
  assert (H1 : "01" ∈ subject_ids ["sub-01_ses-1_eyesopen.csv"]) by compute_done.
  assert (H2 : build_filename "01" "Sleep Deprived (SD)" "Eyes Open"
               = inr Sample.resolved_sd) by reflexivity.
  split; [exact H1|]. split; [exact H2|].
  exact (listed_subject_no_underscore _ "01" "Sleep Deprived (SD)" "Eyes Open"
           Sample.resolved_sd H1 H2).
Defined.

Lemma fetch_reads_local_file_witness :
  files (fs Sample.world) !! file_path Sample.resolved_ns = Some "Time,Fp1,Fz,O1" ∧
  fetch Sample.parse_csv Sample.offline Sample.resolved_ns Sample.world
    = (match Sample.parse_csv "Time,Fp1,Fz,O1" with
       | inl e => Raised e
       | inr df => Done df
       end, Sample.world).
Proof.
  assert (H : files (fs Sample.world) !! file_path Sample.resolved_ns
              = Some "Time,Fp1,Fz,O1") by (vm_compute; reflexivity).
  split; [exact H|].
  exact (fetch_reads_local_file Sample.parse_csv Sample.offline
           Sample.resolved_ns Sample.world "Time,Fp1,Fz,O1" H).
Defined.


Lemma page_cached_run_witness :
  csv_files_of Sample.world ≠ [] ∧
  selected_session Sample.untouched (csv_files_of Sample.world) = inr Sample.resolved_ns ∧
  files (fs Sample.world) !! file_path Sample.resolved_ns = Some "Time,Fp1,Fz,O1" ∧
  Sample.parse_csv "Time,Fp1,Fz,O1" = inr Sample.table ∧
  Py.lookup Sample.table time_col = Some [0; 1; 2]%Z ∧
  Forall (λ ch, ch ∈ eeg_channels Sample.table)
         (chosen_channels Sample.untouched Sample.table) ∧
  Sample.image_open "/Users/brandonfox/Downloads/Brain_image.png" = inr Sample.grey ∧
  fst (page Sample.parse_csv Sample.offline Sample.no_functional Sample.disc
            Sample.image_open Sample.untouched Sample.world) = Done () ∧
  requests (snd (page Sample.parse_csv Sample.offline Sample.no_functional Sample.disc
                      Sample.image_open Sample.untouched Sample.world)) = [].
Proof.
  assert (H1 : csv_files_of Sample.world ≠ []) by (vm_compute; discriminate).
  assert (H2 : selected_session Sample.untouched (csv_files_of Sample.world)
               = inr Sample.resolved_ns) by (vm_compute; reflexivity).
  assert (H3 : files (fs Sample.world) !! file_path Sample.resolved_ns
               = Some "Time,Fp1,Fz,O1") by (vm_compute; reflexivity).
  assert (H4 : Sample.parse_csv "Time,Fp1,Fz,O1" = inr Sample.table) by reflexivity.
  assert (H5 : Py.lookup Sample.table time_col = Some [0; 1; 2]%Z) by reflexivity.
  assert (H6 : Forall (λ ch, ch ∈ eeg_channels Sample.table)
                      (chosen_channels Sample.untouched Sample.table)) by compute_done.
  assert (H7 : Sample.image_open "/Users/brandonfox/Downloads/Brain_image.png"
               = inr Sample.grey) by reflexivity.
  split; [exact H1|]. split; [exact H2|]. split; [exact H3|]. split; [exact H4|].
  split; [exact H5|]. split; [exact H6|]. split; [exact H7|].
  pose proof (page_cached_run Sample.parse_csv Sample.offline Sample.no_functional
                Sample.disc Sample.image_open Sample.untouched Sample.world
                Sample.resolved_ns _ _ _ _ H1 H2 H3 H4 H5 H6 H7) as Hrun.
  split; [exact (f_equal fst Hrun)|exact (f_equal (λ p, requests (snd p)) Hrun)].
Defined.

Lemma render_without_time_column_witness :
  Py.lookup Sample.no_time_table time_col = None ∧
  ["Fp1"] ≠ [] ∧
  render Sample.no_time_table Sample.resolved_ns ["Fp1"] Sample.world
    = (Raised (KeyError "Time"), Sample.world).
Proof.
  assert (H1 : Py.lookup Sample.no_time_table time_col = None) by reflexivity.
  assert (H2 : ["Fp1"] ≠ @nil string) by discriminate.
  split; [exact H1|]. split; [exact H2|].
  exact (render_without_time_column Sample.no_time_table Sample.resolved_ns ["Fp1"]
           Sample.world H1 H2).
Defined.

Lemma render_unknown_channel_witness :
  Py.lookup Sample.table time_col = Some [0; 1; 2]%Z ∧
  Forall (λ ch, ch ∈ eeg_channels Sample.table) ["Fp1"] ∧
  Py.lookup Sample.table "Cz" = None ∧
  render Sample.table Sample.resolved_ns (["Fp1"] ++ "Cz" :: ["O1"]) Sample.world
    = (Raised (KeyError "Cz"), Sample.world).
Proof.
  assert (H1 : Py.lookup Sample.table time_col = Some [0; 1; 2]%Z) by reflexivity.
  assert (H2 : Forall (λ ch, ch ∈ eeg_channels Sample.table) ["Fp1"]) by compute_done.
  assert (H3 : Py.lookup Sample.table "Cz" = None) by reflexivity.
  split; [exact H1|]. split; [exact H2|]. split; [exact H3|].
  exact (render_unknown_channel Sample.table Sample.resolved_ns _ ["Fp1"] ["O1"] "Cz"
           Sample.world H1 H2 H3).
Defined.

Lemma default_selection_renders_witness :
  sel_channels Sample.untouched = None ∧
  Py.lookup Sample.table time_col = Some [0; 1; 2]%Z ∧
  length (chosen_channels Sample.untouched Sample.table)
    = min 5 (length (eeg_channels Sample.table)).
Proof.
  assert (H1 : sel_channels Sample.untouched = None) by reflexivity.
  assert (H2 : Py.lookup Sample.table time_col = Some [0; 1; 2]%Z) by reflexivity.
  split; [exact H1|]. split; [exact H2|].
  exact (proj1 (default_selection_renders Sample.untouched Sample.table
                  Sample.resolved_ns _ Sample.world H1 H2)).
Defined.

Lemma page_selected_electrode_raises_witness :
  csv_files_of Sample.world ≠ [] ∧
  selected_session Sample.highlight (csv_files_of Sample.world) = inr Sample.resolved_ns ∧
  files (fs Sample.world) !! file_path Sample.resolved_ns = Some "Time,Fp1,Fz,O1" ∧
  Sample.parse_csv "Time,Fp1,Fz,O1" = inr Sample.table ∧
  Py.lookup Sample.table time_col = Some [0; 1; 2]%Z ∧
  Forall (λ ch, ch ∈ eeg_channels Sample.table)
         (chosen_channels Sample.highlight Sample.table) ∧
  Sample.image_open "/Users/brandonfox/Downloads/Brain_image.png" = inr Sample.grey ∧
  sel_electrodes Sample.highlight = Some ["FP1"] ∧
  "FP1" ∈ electrode_options ∧
  ∃ c, Py.lookup electrode_colors "FP1" = Some c ∧
       fst (page Sample.parse_csv Sample.offline Sample.no_functional Sample.disc
                 Sample.image_open Sample.highlight Sample.world)
         = Raised (ValueError ("unknown color specifier: '" +:+ c +:+ "80'")).
Proof.
  assert (H1 : csv_files_of Sample.world ≠ []) by (vm_compute; discriminate).
  assert (H2 : selected_session Sample.highlight (csv_files_of Sample.world)
               = inr Sample.resolved_ns) by (vm_compute; reflexivity).
  assert (H3 : files (fs Sample.world) !! file_path Sample.resolved_ns
               = Some "Time,Fp1,Fz,O1") by (vm_compute; reflexivity).
  assert (H4 : Sample.parse_csv "Time,Fp1,Fz,O1" = inr Sample.table) by reflexivity.
  assert (H5 : Py.lookup Sample.table time_col = Some [0; 1; 2]%Z) by reflexivity.
  assert (H6 : Forall (λ ch, ch ∈ eeg_channels Sample.table)
                      (chosen_channels Sample.highlight Sample.table)) by compute_done.
  assert (H7 : Sample.image_open "/Users/brandonfox/Downloads/Brain_image.png"
               = inr Sample.grey) by reflexivity.
  assert (H8 : sel_electrodes Sample.highlight = Some ["FP1"]) by reflexivity.
  assert (H9 : "FP1" ∈ electrode_options) by compute_done.
  split; [exact H1|]. split; [exact H2|]. split; [exact H3|]. split; [exact H4|].
  split; [exact H5|]. split; [exact H6|]. split; [exact H7|]. split; [exact H8|].
  split; [exact H9|].
  destruct (page_selected_electrode_raises Sample.parse_csv Sample.offline
              Sample.no_functional Sample.disc Sample.image_open Sample.highlight
              Sample.world Sample.resolved_ns _ _ _ _ "FP1" [] H1 H2 H3 H4 H5 H6 H7 H8 H9)
    as (c & Hc & Hrun).
  exists c. split; [exact Hc|exact (f_equal fst Hrun)].
Defined.

Lemma downloaded_file_is_listed_witness :
  build_filename "01" "Sleep Deprived (SD)" "Eyes Open" = inr Sample.resolved_sd ∧
  contains "/" "01" = false ∧
  contains "_" "01" = false ∧
  contains "sub-" "01" = false ∧
  path_exists (fs Sample.world) (file_path Sample.resolved_sd) = false ∧
  fetch Sample.parse_csv Sample.hub Sample.resolved_sd Sample.world
    = (Done Sample.table, Sample.world_after_download) ∧
  filename Sample.resolved_sd ∈ csv_files_of Sample.world_after_download ∧
  "01" ∈ subject_ids (csv_files_of Sample.world_after_download).
Proof.
  assert (H1 : build_filename "01" "Sleep Deprived (SD)" "Eyes Open"
               = inr Sample.resolved_sd) by reflexivity.
  assert (H2 : contains "/" "01" = false) by reflexivity.
  assert (H3 : contains "_" "01" = false) by reflexivity.
  assert (H4 : contains "sub-" "01" = false) by reflexivity.
  assert (H5 : path_exists (fs Sample.world) (file_path Sample.resolved_sd) = false)
    by (vm_compute; reflexivity).
  assert (H6 : fetch Sample.parse_csv Sample.hub Sample.resolved_sd Sample.world
               = (Done Sample.table, Sample.world_after_download))
    by (vm_compute; reflexivity).
  split; [exact H1|]. split; [exact H2|]. split; [exact H3|]. split; [exact H4|].
  split; [exact H5|]. split; [exact H6|].
  exact (downloaded_file_is_listed Sample.parse_csv Sample.hub
           "01" "Sleep Deprived (SD)" "Eyes Open" Sample.resolved_sd Sample.world
           Sample.table Sample.world_after_download H1 H2 H3 H4 H5 H6).
Defined.

Lemma page_image_missing_witness :
  csv_files_of Sample.world ≠ [] ∧
  selected_session Sample.untouched (csv_files_of Sample.world) = inr Sample.resolved_ns ∧
  files (fs Sample.world) !! file_path Sample.resolved_ns = Some "Time,Fp1,Fz,O1" ∧
  Sample.parse_csv "Time,Fp1,Fz,O1" = inr Sample.table ∧
  Py.lookup Sample.table time_col = Some [0; 1; 2]%Z ∧
  Forall (λ ch, ch ∈ eeg_channels Sample.table)
         (chosen_channels Sample.untouched Sample.table) ∧
  fst (page Sample.parse_csv Sample.offline Sample.no_functional Sample.disc
            (λ path, inl (FileNotFoundError path)) Sample.untouched Sample.world)
    = Raised (FileNotFoundError "/Users/brandonfox/Downloads/Brain_image.png").
Proof.
  assert (H1 : csv_files_of Sample.world ≠ []) by (vm_compute; discriminate).
  assert (H2 : selected_session Sample.untouched (csv_files_of Sample.world)
               = inr Sample.resolved_ns) by (vm_compute; reflexivity).
  assert (H3 : files (fs Sample.world) !! file_path Sample.resolved_ns
               = Some "Time,Fp1,Fz,O1") by (vm_compute; reflexivity).
  assert (H4 : Sample.parse_csv "Time,Fp1,Fz,O1" = inr Sample.table) by reflexivity.
  assert (H5 : Py.lookup Sample.table time_col = Some [0; 1; 2]%Z) by reflexivity.
  assert (H6 : Forall (λ ch, ch ∈ eeg_channels Sample.table)
                      (chosen_channels Sample.untouched Sample.table)) by compute_done.
  split; [exact H1|]. split; [exact H2|]. split; [exact H3|]. split; [exact H4|].
  split; [exact H5|]. split; [exact H6|].
  exact (f_equal fst
           (page_image_missing Sample.parse_csv Sample.offline Sample.no_functional
              Sample.disc (λ path, inl (FileNotFoundError path)) Sample.untouched
              Sample.world Sample.resolved_ns _ _ _ _ H1 H2 H3 H4 H5 H6 eq_refl)).
Defined.

Lemma page_exists_absolute_witness :
  startswith "/srv/app/pages/eeg_plotly_viewer.py" "/" = true ∧
  Home.page_exists Sample.project "/srv/app/pages/eeg_plotly_viewer.py"
    = path_exists Sample.project "/srv/app/pages/eeg_plotly_viewer.py".
Proof.
  assert (H : startswith "/srv/app/pages/eeg_plotly_viewer.py" "/" = true) by reflexivity.
  split; [exact H|].
  exact (page_exists_absolute Sample.project _ H).
Defined.

Lemma link_or_hint_target_witness :
  startswith "eeg_plotly_viewer.py" "/" = false ∧
  path_exists Sample.project ("pages/" +:+ "eeg_plotly_viewer.py") = true ∧
  Home.link_or_hint true Sample.project "EEG Viewer" "eeg_plotly_viewer.py" "->"
    = Home.PageLink "eeg_plotly_viewer.py" ("->" +:+ " " +:+ "EEG Viewer").
Proof.
  assert (H1 : startswith "eeg_plotly_viewer.py" "/" = false) by reflexivity.
  assert (H2 : path_exists Sample.project ("pages/" +:+ "eeg_plotly_viewer.py") = true)
    by (vm_compute; reflexivity).
  split; [exact H1|]. split; [exact H2|].
  exact (proj1 (link_or_hint_target Sample.project "EEG Viewer" "eeg_plotly_viewer.py" "->")
           H1 H2).
Defined.
